(** * Library lending data layer: models of [libraryapi/models.py]

    The repository consists of Django model declarations, two
    diff-and-update methods ([UserProxy.check_diff], [GoogleUser.check_diff])
    and two derived properties ([Book.status], [History.exptdreturn_date]).

    The development has three layers:
    - [Py]: the Python values the methods compute with, and the part of the
      [datetime] module that [History._expected_return_date] uses;
    - [Orm]: what a model declaration means: instances are attribute
      dictionaries, a database is a family of tables, [save] and [create]
      apply defaults, the [auto_now]/[auto_now_add] hooks and the relational
      constraints the declarations state ([null], [unique], foreign keys),
      and a listing is ordered by [Meta.ordering];
    - the models themselves, declaration by declaration, followed by the
      properties of the lending domain. *)

From Stdlib Require Import ZArith Ascii String List Lia.
From stdpp Require Import base gmap strings list sorting.

Local Open Scope string_scope.
Local Open Scope Z_scope.

(** ** Python values and exceptions *)

Module Py.

(** The values held by model attributes and request payloads. A datetime
    is its POSIX timestamp in seconds. *)
Inductive value :=
| VNone
| VBool (b : bool)
| VInt (z : Z)
| VStr (s : string)
| VDateTime (t : Z).

#[global] Instance value_eq_dec : EqDecision value.
Proof. solve_decision. Defined.

(** The exceptions that the modelled code can raise. *)
Inductive error :=
| KeyError
| AttributeError
| TypeError
| IntegrityError
| DataError
| OverflowError.

#[global] Instance error_eq_dec : EqDecision error.
Proof. solve_decision. Defined.

Inductive result (A : Type) :=
| Ok (a : A)
| Err (e : error).
Arguments Ok {A} a.
Arguments Err {A} e.

#[global] Instance result_eq_dec {A} `{EqDecision A} : EqDecision (result A).
Proof. solve_decision. Defined.

Definition bind {A B} (r : result A) (k : A → result B) : result B :=
  match r with
  | Ok a => k a
  | Err e => Err e
  end.

(** [a == b]: [bool] is a subclass of [int], so [True == 1]; values of
    unrelated types are unequal. *)
Definition py_eq (a b : value) : bool :=
  match a, b with
  | VNone, VNone => true
  | VBool x, VBool y => Bool.eqb x y
  | VInt x, VInt y => x =? y
  | VBool x, VInt y => Z.b2z x =? y
  | VInt x, VBool y => x =? Z.b2z y
  | VStr x, VStr y => String.eqb x y
  | VDateTime x, VDateTime y => x =? y
  | _, _ => false
  end.

(** [a != b] *)
Definition py_ne (a b : value) : bool := negb (py_eq a b).

(** [a <= b]: defined between numbers ([bool] counts as [int]), between
    strings and between datetimes; any other pair is a [TypeError]. *)
Definition py_le (a b : value) : result bool :=
  match a, b with
  | VBool x, VBool y => Ok (Z.b2z x <=? Z.b2z y)
  | VBool x, VInt y => Ok (Z.b2z x <=? y)
  | VInt x, VBool y => Ok (x <=? Z.b2z y)
  | VInt x, VInt y => Ok (x <=? y)
  | VStr x, VStr y => Ok (String.leb x y)
  | VDateTime x, VDateTime y => Ok (x <=? y)
  | _, _ => Err TypeError
  end.

(** A datetime or [None]. *)
Definition nullable_datetime (o : option Z) : value :=
  match o with
  | Some t => VDateTime t
  | None => VNone
  end.

(** An object's attribute dictionary, [getattr] and [setattr]. *)
Abbreviation object := (gmap string value).

Definition getattr (self : object) (name : string) : result value :=
  match self !! name with
  | Some v => Ok v
  | None => Err AttributeError
  end.

Definition setattr (self : object) (name : string) (v : value) : object :=
  <[name := v]> self.

(** [d[key]] on a dictionary. *)
Definition getitem (d : gmap string value) (key : string) : result value :=
  match d !! key with
  | Some v => Ok v
  | None => Err KeyError
  end.

End Py.
Export Py.

(** ** The [datetime] module: dates, [timedelta], [date + timedelta] *)

Module Datetime.

(** A [date] is represented by its proleptic Gregorian ordinal
    ([date.toordinal()]): 0001-01-01 is day 1. *)
Definition MINYEAR : Z := 1.
Definition MAXYEAR : Z := 9999.
Definition _MAXORDINAL : Z := 3652059.

Definition _is_leap (year : Z) : bool :=
  (year mod 4 =? 0) && (negb (year mod 100 =? 0) || (year mod 400 =? 0)).

Definition _days_before_year (year : Z) : Z :=
  let y := year - 1 in
  y * 365 + y / 4 - y / 100 + y / 400.

Definition _DAYS_IN_MONTH : list Z :=
  [31; 28; 31; 30; 31; 30; 31; 31; 30; 31; 30; 31].

Definition _days_in_month (year month : Z) : Z :=
  if (month =? 2) && _is_leap year then 29
  else nth (Z.to_nat (month - 1)) _DAYS_IN_MONTH 0.

Definition _days_before_month (year month : Z) : Z :=
  fold_right Z.add 0 (firstn (Z.to_nat (month - 1)) _DAYS_IN_MONTH)
  + (if (2 <? month) && _is_leap year then 1 else 0).

Definition _ymd2ord (year month day : Z) : Z :=
  _days_before_year year + _days_before_month year month + day.

(** [datetime.date(year, month, day)]; [None] stands for [ValueError]. *)
Definition date (year month day : Z) : option Z :=
  if (MINYEAR <=? year) && (year <=? MAXYEAR)
     && (1 <=? month) && (month <=? 12)
     && (1 <=? day) && (day <=? _days_in_month year month)
  then Some (_ymd2ord year month day)
  else None.

Record timedelta := Timedelta { days : Z; seconds : Z; microseconds : Z }.

(** [datetime.timedelta(weeks=w)] *)
Definition timedelta_weeks (w : Z) : timedelta :=
  {| days := 7 * w; seconds := 0; microseconds := 0 |}.

(** [date.__add__]: only the [days] of the delta count, and a result
    outside 0001-01-01 .. 9999-12-31 raises [OverflowError]. *)
Definition date_add (d : Z) (td : timedelta) : result Z :=
  let o := d + days td in
  if (0 <? o) && (o <=? _MAXORDINAL) then Ok o else Err OverflowError.

(** Ordinal of 1970-01-01, and [datetime.date()] of a timestamp. *)
Definition EPOCH_ORDINAL : Z := 719163.

Definition datetime_date (t : Z) : Z := EPOCH_ORDINAL + t / 86400.

(** A timestamp at the given calendar day and second of that day. *)
Definition timestamp (ordinal second_of_day : Z) : Z :=
  (ordinal - EPOCH_ORDINAL) * 86400 + second_of_day.

End Datetime.

(** ** The object-relational layer *)

Module Orm.

(** *** Field declarations *)

(** The field classes that the models use. [max_length] is recorded as
    declared; neither it nor the width of an integer column is enforced
    by [save], which runs no validator. *)
Inductive kind :=
| AutoField
| CharField (max_length : nat)
| EmailField (max_length : nat)
| TextField
| IntegerField
| BooleanField
| DateTimeField (auto_now auto_now_add : bool)
| ForeignKey (to : string)
| OneToOneField (to : string)
| ManyToManyField (to : string).

(** The [default] option: none, a value, or the callable [timezone.now]. *)
Inductive default_spec :=
| NoDefault
| Default (v : value)
| DefaultNow.

Record field := Field {
  attname : string;
  fkind : kind;
  null : bool;
  unique : bool;
  field_default : default_spec
}.

(** A field declared with no option. *)
Definition fld (name : string) (k : kind) : field :=
  {| attname := name; fkind := k; null := false; unique := false;
     field_default := NoDefault |}.

Definition with_null (f : field) : field :=
  {| attname := attname f; fkind := fkind f; null := true;
     unique := unique f; field_default := field_default f |}.

Definition with_unique (f : field) : field :=
  {| attname := attname f; fkind := fkind f; null := null f;
     unique := true; field_default := field_default f |}.

Definition with_default (d : default_spec) (f : field) : field :=
  {| attname := attname f; fkind := fkind f; null := null f;
     unique := unique f; field_default := d |}.

(** A model: its table, its fields in declaration order (inherited ones
    first), and [Meta.ordering]. The implicit primary key [id] is part
    of [fields]. *)
Record model := Model {
  db_table : string;
  fields : list field;
  ordering : list string
}.

Definition pk_field : field := fld "id" AutoField.

(** A many-to-many field has no column in the model's table. *)
Definition has_column (f : field) : bool :=
  match fkind f with
  | ManyToManyField _ => false
  | _ => true
  end.

Definition columns (m : model) : list field := filter has_column (fields m).

Definition empty_strings_allowed (k : kind) : bool :=
  match k with
  | CharField _ | EmailField _ | TextField => true
  | _ => false
  end.

(** A one-to-one field is a foreign key with a unique column. *)
Definition is_unique (f : field) : bool :=
  unique f ||
  match fkind f with
  | OneToOneField _ => true
  | _ => false
  end.

Definition references (f : field) : option string :=
  match fkind f with
  | ForeignKey to | OneToOneField to => Some to
  | _ => None
  end.

(** *** Instances, tables, databases *)

Abbreviation instance := (gmap string value).
Abbreviation table := (gmap Z (gmap string value)).
Abbreviation database := (gmap string (gmap Z (gmap string value))).

(** The value of a column of a row; a missing one reads as NULL. *)
Definition attr (r : instance) (name : string) : value :=
  default VNone (r !! name).

Definition get_table (db : database) (name : string) : table :=
  default ∅ (db !! name).

(** [Field.get_default] at time [now]. *)
Definition get_default (now : Z) (f : field) : value :=
  match field_default f with
  | Default v => v
  | DefaultNow => VDateTime now
  | NoDefault =>
      if empty_strings_allowed (fkind f) && negb (null f) then VStr ""
      else VNone
  end.

(** [Model(kwargs)]: every column takes the keyword argument of its
    name, or else its default; an unknown keyword is a [TypeError]. *)
Definition init (m : model) (now : Z) (kwargs : gmap string value)
  : result instance :=
  if decide (dom kwargs ⊆ list_to_set (attname <$> columns m))
  then Ok (list_to_map
             ((λ f, (attname f,
                     default (get_default now f) (kwargs !! attname f)))
                <$> columns m))
  else Err TypeError.

(** [Field.pre_save(instance, add)]: a [DateTimeField] with [auto_now],
    or with [auto_now_add] on insertion, is set to the current time. *)
Definition pre_save (add : bool) (now : Z) (self : instance) (f : field)
  : instance :=
  match fkind f with
  | DateTimeField auto_now auto_now_add =>
      if auto_now || (auto_now_add && add)
      then setattr self (attname f) (VDateTime now)
      else self
  | _ => self
  end.

(** Whether [pre_save] sets the field. *)
Definition sets_timestamp (add : bool) (f : field) : bool :=
  match fkind f with
  | DateTimeField auto_now auto_now_add => auto_now || (auto_now_add && add)
  | _ => false
  end.

Definition pre_save_all (m : model) (add : bool) (now : Z) (self : instance)
  : instance :=
  foldl (pre_save add now) self (columns m).

(** *** The constraints the database enforces on a written row *)

Definition not_null_ok (r : instance) (f : field) : bool :=
  null f || negb (bool_decide (attr r (attname f) = VNone)).

(** No row other than [pk] holds the same non-NULL value. *)
Definition unique_ok (t : table) (pk : Z) (r : instance) (f : field) : bool :=
  negb (is_unique f)
  || bool_decide (attr r (attname f) = VNone)
  || bool_decide (map_Forall
       (λ k r', k = pk ∨ attr r' (attname f) ≠ attr r (attname f)) t).

Definition foreign_key_ok (db : database) (r : instance) (f : field) : bool :=
  match references f with
  | None => true
  | Some to =>
      match attr r (attname f) with
      | VNone => true
      | VInt k => bool_decide (is_Some (get_table db to !! k))
      | _ => false
      end
  end.

Definition constraints_ok (m : model) (db : database) (pk : Z) (r : instance)
  : bool :=
  forallb (λ f, not_null_ok r f
                && unique_ok (get_table db (db_table m)) pk r f
                && foreign_key_ok db r f)
          (columns m).

(** *** The range of an integer column

    The column that the database holds for an [IntegerField] stores the
    integers of a fixed width: 32 bits on PostgreSQL and on MySQL, which
    is the range that Django documents as safe on every database it
    supports (SQLite's column is 64 bits wide). The 32-bit column is
    the one modelled. A value outside the range is rejected when the
    row is written: the statement fails with [DataError] before any
    constraint is looked at. *)
Definition integer_min : Z := -2147483648.
Definition integer_max : Z := 2147483647.

Definition in_range (r : instance) (f : field) : bool :=
  match fkind f, attr r (attname f) with
  | IntegerField, VInt z => (integer_min <=? z) && (z <=? integer_max)
  | _, _ => true
  end.

Definition integers_in_range (m : model) (r : instance) : bool :=
  forallb (in_range r) (columns m).

(** The next value of the auto-increment primary key. *)
Definition next_pk (t : table) : Z :=
  1 + map_fold (λ k _ acc, Z.max k acc) 0 t.

(** [Model.save(force_insert)]. The row is inserted when the instance
    has no primary key or no row has it, and updated otherwise. The
    instance is mutated by the [pre_save] hooks and, on success, by the
    assignment of the key; an integer that the column cannot hold
    raises [DataError], a violated constraint raises [IntegrityError],
    and both leave the database as it was. *)
Definition save_base (force_insert : bool) (m : model) (now : Z)
    (db : database) (self : instance) : instance * result database :=
  let t := get_table db (db_table m) in
  let target :=
    match attr self "id" with
    | VNone => Ok (next_pk t, true)
    | VInt k =>
        match t !! k with
        | None => Ok (k, true)
        | Some _ => if force_insert then Err IntegrityError else Ok (k, false)
        end
    | _ => Err TypeError
    end in
  match target with
  | Err e => (self, Err e)
  | Ok (pk, add) =>
      let self1 := pre_save_all m add now self in
      let self2 := setattr self1 "id" (VInt pk) in
      if integers_in_range m self2
      then
        if constraints_ok m db pk self2
        then (self2, Ok (<[db_table m := <[pk := self2]> t]> db))
        else (self1, Err IntegrityError)
      else (self1, Err DataError)
  end.

Definition save := save_base false.

(** [Model.objects.create(kwargs)] *)
Definition create (m : model) (now : Z) (db : database)
    (kwargs : gmap string value) : result (instance * database) :=
  match init m now kwargs with
  | Err e => Err e
  | Ok self =>
      match save_base true m now db self with
      | (self', Ok db') => Ok (self', db')
      | (_, Err e) => Err e
      end
  end.

(** *** Ordered listings *)

(** The order of the database on column values: NULL first, then
    numbers, then datetimes, then text compared character by character
    (binary collation). *)
Definition type_rank (v : value) : Z :=
  match v with
  | VNone => 0
  | VBool _ | VInt _ => 1
  | VDateTime _ => 2
  | VStr _ => 3
  end.

Definition number_of (v : value) : Z :=
  match v with
  | VBool b => Z.b2z b
  | VInt z | VDateTime z => z
  | _ => 0
  end.

Definition text_of (v : value) : string :=
  match v with
  | VStr s => s
  | _ => ""
  end.

Definition value_leb (a b : value) : bool :=
  (type_rank a <? type_rank b)
  || ((type_rank a =? type_rank b)
      && ((number_of a <? number_of b)
          || ((number_of a =? number_of b)
              && String.leb (text_of a) (text_of b)))).

(** An entry of [Meta.ordering]: a column name, descending when it is
    prefixed by a hyphen. *)
Definition parse_ordering (o : string) : bool * string :=
  match o with
  | String "-"%char name => (true, name)
  | _ => (false, o)
  end.

Definition key_leb (o : string) (r1 r2 : instance) : bool :=
  let '(descending, name) := parse_ordering o in
  if descending then value_leb (attr r2 name) (attr r1 name)
  else value_leb (attr r1 name) (attr r2 name).

(** [ORDER BY] on several keys: the first key decides, later keys break
    its ties. *)
Fixpoint row_leb (ord : list string) (r1 r2 : instance) : bool :=
  match ord with
  | [] => true
  | o :: ord' =>
      key_leb o r1 r2 && (negb (key_leb o r2 r1) || row_leb ord' r1 r2)
  end.

Definition row_le (ord : list string) (r1 r2 : instance) : Prop :=
  row_leb ord r1 r2 = true.

#[global] Instance row_le_dec ord : RelDecision (row_le ord).
Proof. intros r1 r2. unfold row_le. apply _. Defined.

(** Two rows in ascending, respectively descending, order of a column. *)
Definition ascending (name : string) (r1 r2 : instance) : Prop :=
  value_leb (attr r1 name) (attr r2 name) = true.

Definition descending (name : string) (r1 r2 : instance) : Prop :=
  value_leb (attr r2 name) (attr r1 name) = true.

(** The rows of a model's table, in no particular order. *)
Definition rows (m : model) (db : database) : list instance :=
  (map_to_list (get_table db (db_table m))).*2.

(** [Model.objects.all()]: the rows, ordered by [Meta.ordering]. *)
Definition all (m : model) (db : database) : list instance :=
  merge_sort (row_le (ordering m)) (rows m db).

(** No column that an update refreshes carries a uniqueness or a
    foreign-key constraint. *)
Definition timestamps_unconstrained (m : model) : bool :=
  forallb
    (λ f, negb (existsb (λ g, String.eqb (attname g) (attname f)
                              && sets_timestamp false g)
                        (columns m))
          || (negb (is_unique f) && bool_decide (references f = None)))
    (columns m).

(** A model none of whose fields is set by a [pre_save] hook. *)
Definition no_auto_timestamp (m : model) : Prop :=
  ∀ add now self, pre_save_all m add now self = self.

End Orm.
Export Orm.

(** ** The models of [libraryapi/models.py]

    A relation field holds the primary key of the row it refers to, under
    the field's own name. *)

(** [django.contrib.auth.models.User], which the module imports. *)
Module User.

Definition model : Orm.model :=
  {| db_table := "auth_user";
     fields :=
       [ pk_field;
         fld "password" (CharField 128);
         with_null (fld "last_login" (DateTimeField false false));
         with_default (Default (VBool false)) (fld "is_superuser" BooleanField);
         with_unique (fld "username" (CharField 150));
         fld "first_name" (CharField 30);
         fld "last_name" (CharField 30);
         fld "email" (EmailField 254);
         with_default (Default (VBool false)) (fld "is_staff" BooleanField);
         with_default (Default (VBool true)) (fld "is_active" BooleanField);
         with_default DefaultNow (fld "date_joined" (DateTimeField false false)) ];
     ordering := [] |}.

End User.

(** The identity payload of the scenario of the specification. *)
Module Payload.

Definition partial : gmap string value :=
  {[ "sub" := VStr "x1"; "name" := VStr ""; "email" := VStr "a@b.com";
     "given_name" := VStr "Amir"; "family_name" := VStr "";
     "picture" := VStr "" ]}.

Definition unchanged : gmap string value :=
  {[ "sub" := VStr "x1"; "name" := VStr "old"; "email" := VStr "old@x.com";
     "given_name" := VStr "Old"; "family_name" := VStr "Name";
     "picture" := VStr "http://p/1.png" ]}.

Definition new_picture : gmap string value :=
  {[ "sub" := VStr "x1"; "picture" := VStr "http://p/2.png" ]}.

End Payload.

(** The loop shared by the two [check_diff] methods:
    [for field in data:
       if getattr(self, field) != data[field] and data[field] != '':
         setattr(self, field, data[field])].
    The object is mutated in place, so a failing [getattr] leaves the
    assignments already made. *)
Fixpoint update_fields (data : list (string * value)) (self : object)
  : object * result unit :=
  match data with
  | [] => (self, Ok tt)
  | (field, v) :: data' =>
      match getattr self field with
      | Err e => (self, Err e)
      | Ok current =>
          update_fields data'
            (if py_ne current v && py_ne v (VStr "")
             then setattr self field v
             else self)
      end
  end.

(** What one iteration of the loop leaves in the field it visits. *)
Definition merged (stored incoming : value) : value :=
  if py_ne stored incoming && py_ne incoming (VStr "") then incoming
  else stored.

Module UserProxy.

(** [proxy = True]: the table and the fields are those of [User];
    [auto_created = True] only silences the save signals. *)
Definition model : Orm.model := User.model.

(** The fields that [check_diff] reconciles, each with the key of the
    payload it is compared to. *)
Definition recognized : list (string * string) :=
  [ ("username", "name");
    ("email", "email");
    ("first_name", "given_name");
    ("last_name", "family_name") ].

(** The instance has the field and the payload has the key. *)
Definition present (self : instance) (idinfo : gmap string value)
    (p : string * string) : bool :=
  bool_decide (is_Some (self !! p.1) ∧ is_Some (idinfo !! p.2)).

(** The payload's value equals ([==]) the value of the field. *)
Definition agrees (self : instance) (idinfo : gmap string value)
    (p : string * string) : bool :=
  match self !! p.1, idinfo !! p.2 with
  | Some stored, Some incoming => py_eq stored incoming
  | _, _ => false
  end.

Definition check_diff (now : Z) (db : database) (self : instance)
    (idinfo : gmap string value) : instance * result database :=
  let data :=
    bind (getitem idinfo "name") (λ name,
    bind (getitem idinfo "email") (λ email,
    bind (getitem idinfo "given_name") (λ given_name,
    bind (getitem idinfo "family_name") (λ family_name,
      Ok [ ("username", name);
           ("email", email);
           ("first_name", given_name);
           ("last_name", family_name) ])))) in
  match data with
  | Err e => (self, Err e)
  | Ok data =>
      match update_fields data self with
      | (self', Err e) => (self', Err e)
      | (self', Ok _) => save model now db self'
      end
  end.

End UserProxy.

Module BaseInfo.

Definition created_at : field := fld "created_at" (DateTimeField false true).
Definition updated_at : field := fld "updated_at" (DateTimeField true false).

(** [abstract = True]: the fields are inherited by the concrete models. *)
Definition fields : list field := [pk_field; created_at; updated_at].

End BaseInfo.

Module GoogleUser.

Definition google_id : field := with_unique (fld "google_id" (CharField 60)).
Definition app_user : field := fld "app_user" (OneToOneField "auth_user").
Definition appuser_picture : field := fld "appuser_picture" TextField.

Definition model : Orm.model :=
  {| db_table := "libraryapi_googleuser";
     fields := [pk_field; google_id; app_user; appuser_picture];
     ordering := [] |}.

Definition check_diff (now : Z) (db : database) (self : instance)
    (idinfo : gmap string value) : instance * result database :=
  let data :=
    bind (getitem idinfo "picture") (λ picture,
      Ok [ ("appuser_picture", picture) ]) in
  match data with
  | Err e => (self, Err e)
  | Ok data =>
      match update_fields data self with
      | (self', Err e) => (self', Err e)
      | (self', Ok _) => save model now db self'
      end
  end.

End GoogleUser.

Module Author.

Definition name : field := fld "name" (CharField 200).

Definition model : Orm.model :=
  {| db_table := "libraryapi_author";
     fields := BaseInfo.fields ++ [name];
     ordering := ["name"] |}.

End Author.

Module Category.

Definition name : field := fld "name" (CharField 200).

Definition model : Orm.model :=
  {| db_table := "libraryapi_category";
     fields := BaseInfo.fields ++ [name];
     ordering := ["name"] |}.

End Category.

Module Book.

Definition title : field := fld "title" (CharField 100).
Definition description : field := fld "description" TextField.
Definition quantity : field := fld "quantity" IntegerField.
Definition edition : field := fld "edition" (CharField 100).
Definition publisher : field := fld "publisher" (CharField 100).
Definition isbn : field := fld "isbn" (CharField 50).
Definition author : field := fld "author" (ManyToManyField "libraryapi_author").
Definition category : field := fld "category" (ForeignKey "libraryapi_category").

Definition model : Orm.model :=
  {| db_table := "libraryapi_book";
     fields := BaseInfo.fields
               ++ [title; description; quantity; edition; publisher; isbn;
                   author; category];
     ordering := ["title"] |}.

Definition _check_status (self : instance) : result string :=
  bind (getattr self "quantity") (λ q,
  bind (py_le q (VInt 0)) (λ nonpositive,
    if nonpositive then Ok "Not Available" else Ok "Available")).

(** [status = property(_check_status)] *)
Definition status : instance → result string := _check_status.

End Book.

Module Ratings.

Definition comment : field := fld "comment" TextField.
Definition score : field := fld "score" IntegerField.
Definition user : field := fld "user" (ForeignKey "auth_user").
Definition book : field := fld "book" (ForeignKey "libraryapi_book").

Definition model : Orm.model :=
  {| db_table := "libraryapi_ratings";
     fields := BaseInfo.fields ++ [comment; score; user; book];
     ordering := [] |}.

End Ratings.

Module History.

Definition lending_date : field :=
  fld "lending_date" (DateTimeField false true).
Definition return_date : field :=
  with_null (fld "return_date" (DateTimeField false false)).
Definition returned : field :=
  with_default (Default (VBool false)) (fld "returned" BooleanField).
Definition book : field := fld "book" (ForeignKey "libraryapi_book").
Definition user : field := fld "user" (ForeignKey "auth_user").

Definition model : Orm.model :=
  {| db_table := "libraryapi_history";
     fields := BaseInfo.fields
               ++ [lending_date; return_date; returned; book; user];
     ordering := ["-created_at"] |}.

(** The keyword arguments of [History.objects.create] for a loan:
    the book, the user and, when the caller supplies one, a value for
    [lending_date]. *)
Definition loan_kwargs (book user : Z) (supplied : option value)
  : gmap string value :=
  match supplied with
  | Some v => {[ "book" := VInt book; "user" := VInt user; "lending_date" := v ]}
  | None => {[ "book" := VInt book; "user" := VInt user ]}
  end.

(** [today] is what [datetime.date.today()] returns when the property
    is read. *)
Definition _expected_return_date (today : Z) (self : instance) : result Z :=
  let present_day := today in
  let day_14 := Datetime.timedelta_weeks 2 in
  let return_date := Datetime.date_add present_day day_14 in
  return_date.

(** [exptdreturn_date = property(_expected_return_date)] *)
Definition exptdreturn_date : Z → instance → result Z :=
  _expected_return_date.

End History.

Module Interest.

Definition done : field :=
  with_default (Default (VBool false)) (fld "done" BooleanField).
Definition user : field := fld "user" (ForeignKey "auth_user").
Definition book : field := fld "book" (ForeignKey "libraryapi_book").

Definition model : Orm.model :=
  {| db_table := "libraryapi_interest";
     fields := BaseInfo.fields ++ [done; user; book];
     ordering := ["-created_at"] |}.

End Interest.

Module Quote.

Definition author : field := fld "author" (CharField 100).
Definition statement : field := fld "statement" TextField.

Definition model : Orm.model :=
  {| db_table := "libraryapi_quote";
     fields := [pk_field; author; statement];
     ordering := [] |}.

End Quote.

(** ** Concrete records used by the scenarios *)

Module Scenario.

(** Calendar days, as ordinals. *)
Definition d2024_01_01 : Z := Datetime._ymd2ord 2024 1 1.
Definition d2024_01_02 : Z := Datetime._ymd2ord 2024 1 2.
Definition d2024_01_03 : Z := Datetime._ymd2ord 2024 1 3.
Definition d2024_01_15 : Z := Datetime._ymd2ord 2024 1 15.

(** A database with one user, one category and one book. *)
Definition user1 : instance :=
  {[ "id" := VInt 1; "password" := VStr "!"; "last_login" := VNone;
     "is_superuser" := VBool false; "username" := VStr "old";
     "first_name" := VStr "Old"; "last_name" := VStr "Name";
     "email" := VStr "old@x.com"; "is_staff" := VBool false;
     "is_active" := VBool true; "date_joined" := VDateTime 0 ]}.

(** [user1] after the reconciliation with [Payload.partial]. *)
Definition user1_reconciled : instance :=
  setattr (setattr user1 "email" (VStr "a@b.com")) "first_name" (VStr "Amir").

Definition category1 : instance :=
  {[ "id" := VInt 1; "created_at" := VDateTime 0;
     "updated_at" := VDateTime 0; "name" := VStr "Fiction" ]}.

Definition dune : instance :=
  {[ "id" := VInt 7; "created_at" := VDateTime 0;
     "updated_at" := VDateTime 0; "title" := VStr "Dune";
     "description" := VStr ""; "quantity" := VInt 0;
     "edition" := VStr "1"; "publisher" := VStr "Chilton";
     "isbn" := VStr "9780441013593"; "category" := VInt 1 ]}.

Definition profile1 : instance :=
  {[ "id" := VInt 1; "google_id" := VStr "x1"; "app_user" := VInt 1;
     "appuser_picture" := VStr "http://p/1.png" ]}.

Definition author (id : Z) (created : Z) (name : string) : instance :=
  {[ "id" := VInt id; "created_at" := VDateTime created;
     "updated_at" := VDateTime created; "name" := VStr name ]}.

Definition db0 : database :=
  {[ "auth_user" := {[ 1 := user1 ]};
     "libraryapi_googleuser" := {[ 1 := profile1 ]};
     "libraryapi_author" :=
       {[ 1 := author 1 10 "Herbert"; 2 := author 2 20 "Asimov";
          3 := author 3 30 "Le Guin" ]};
     "libraryapi_category" := {[ 1 := category1 ]};
     "libraryapi_book" := {[ 7 := dune ]} ]}.

(** A loan of [dune] to [user1], issued on 2024-01-01 at noon. *)
Definition noon_2024_01_01 : Z := Datetime.timestamp d2024_01_01 43200.

Definition loan : instance :=
  {[ "id" := VInt 1; "created_at" := VDateTime noon_2024_01_01;
     "updated_at" := VDateTime noon_2024_01_01;
     "lending_date" := VDateTime noon_2024_01_01;
     "return_date" := VNone; "returned" := VBool false;
     "book" := VInt 7; "user" := VInt 1 ]}.

(** The database after the loan has been issued. *)
Definition db1 : database :=
  <["libraryapi_history" := {[ 1 := loan ]}]> db0.

(** The loan after an update, made a day later, that assigns
    [lending_date]. *)
Definition next_day : Z := noon_2024_01_01 + 86400.

Definition loan_redated : instance :=
  setattr (setattr loan "lending_date" (VDateTime 0))
    "updated_at" (VDateTime next_day).


End Scenario.

(** ** The schema as a whole, and the consistency of a database *)

Module Schema.

(** The table behind [Book.author]: one row per (book, author) pair. *)
Definition book_author : model :=
  {| db_table := "libraryapi_book_author";
     fields := [ pk_field;
                 fld "book" (ForeignKey "libraryapi_book");
                 fld "author" (ForeignKey "libraryapi_author") ];
     ordering := [] |}.

(** The models with a table of their own ([UserProxy] shares the table
    of [User]; [BaseInfo] is abstract). *)
Definition registry : list model :=
  [ User.model; GoogleUser.model; Author.model; Category.model; Book.model;
    book_author; Ratings.model; History.model; Interest.model; Quote.model ].



(** *** Deletion

    Every relation of the models is declared [on_delete=models.CASCADE]:
    deleting a row deletes the rows that refer to it, and so on. *)








(** *** The write operations

    What the application can do to the database through the models: the
    manager's [create], an instance's [save], the two [check_diff]
    methods and [delete]. An operation that raises writes nothing. *)

Inductive operation :=
| Create (m : model) (kwargs : gmap string value)
| Save (m : model) (self : instance)
| ReconcileProfile (self : instance) (idinfo : gmap string value)
| ReconcilePicture (self : instance) (idinfo : gmap string value)
| Delete (m : model) (pks : gset Z).




(** *** Kinds of columns *)



(** *** The models that inherit [BaseInfo] *)


End Schema.

(** ** The display methods

    Every model defines [__unicode__], the text under which an object is
    shown. The methods of [GoogleUser], [Ratings], [History] and
    [Interest] go through a relation: the related object is fetched from
    the database by the key that the instance holds. *)

Module Display.

Inductive failure :=
| DoesNotExist (table : string)
| Raised (e : error).

Inductive outcome (A : Type) :=
| Returns (a : A)
| Raises (e : failure).
Arguments Returns {A} a.
Arguments Raises {A} e.

Definition and_then {A B : Type} (x : outcome A) (f : A → outcome B)
  : outcome B :=
  match x with
  | Returns a => f a
  | Raises e => Raises e
  end.

(** An attribute of the instance. *)
Definition field_of (self : object) (name : string) : outcome value :=
  match getattr self name with
  | Ok v => Returns v
  | Err e => Raises (Raised e)
  end.

(** The descriptor of a relation that is not nullable, on an instance
    with no cached object: the row of the key, [DoesNotExist] when the
    key is [None] or no row has it; the object is fetched once. A
    relation holds a key or [None], as its column does. *)
Definition related (db : database) (to : string) (self : instance)
    (name : string) : outcome instance :=
  match attr self name with
  | VInt j =>
      match get_table db to !! j with
      | Some r => Returns r
      | None => Raises (DoesNotExist to)
      end
  | VNone => Raises (DoesNotExist to)
  | _ => Raises (Raised TypeError)
  end.

(** [User.__str__]: the username, which has to be text. *)
Definition User__str__ (self : instance) : outcome string :=
  and_then (field_of self "username") (λ username,
    match username with
    | VStr s => Returns s
    | _ => Raises (Raised TypeError)
    end).

(** In what follows [str] is the text of a column value ([%s] and an
    empty format specification both produce it). *)

Module GoogleUser.
Definition __unicode__ (str : value → string) (db : database)
    (self : instance) : outcome string :=
  and_then (related db "auth_user" self "app_user") (λ app_user,
  and_then (field_of app_user "first_name") (λ first_name,
  and_then (field_of app_user "last_name") (λ last_name,
    Returns (str first_name ++ " " ++ str last_name)))).
End GoogleUser.

Module Author.
Definition __unicode__ (str : value → string) (self : instance)
  : outcome string :=
  and_then (field_of self "name") (λ name, Returns (str name)).
End Author.

Module Category.
Definition __unicode__ (str : value → string) (self : instance)
  : outcome string :=
  and_then (field_of self "name") (λ name,
    Returns ("Category : " ++ str name)).
End Category.

Module Book.
Definition __unicode__ (str : value → string) (self : instance)
  : outcome string :=
  and_then (field_of self "title") (λ title,
    Returns ("Book title: " ++ str title)).
End Book.

Module Ratings.
Definition __unicode__ (db : database) (self : instance) : outcome string :=
  and_then (related db "auth_user" self "user") (λ user,
  and_then (User__str__ user) (λ text,
    Returns ("Review by user : " ++ text))).
End Ratings.

Module History.
Definition __unicode__ (db : database) (self : instance) : outcome string :=
  and_then (related db "auth_user" self "user") (λ user,
  and_then (User__str__ user) (λ text,
    Returns ("History for user : " ++ text))).
End History.

Module Interest.
Definition __unicode__ (str : value → string) (db : database)
    (self : instance) : outcome string :=
  and_then (related db "auth_user" self "user") (λ user,
  and_then (field_of user "username") (λ username,
  and_then (related db "libraryapi_book" self "book") (λ book,
  and_then (field_of book "title") (λ title,
    Returns ("User " ++ str username ++ " interested in book "
             ++ str title))))).
End Interest.

Module Quote.
Definition __unicode__ (str : value → string) (self : instance)
  : outcome string :=
  and_then (field_of self "author") (λ author, Returns (str author)).
End Quote.

End Display.

(** ** The initial migration of [libraryapp] *)

Module Migration.

Definition app_label : string := "libraryapp".

(** [str.lower] on the letters of ASCII. *)
Definition lower_ascii (c : ascii) : ascii :=
  let n := nat_of_ascii c in
  if (65 <=? n)%nat && (n <=? 90)%nat then ascii_of_nat (n + 32) else c.

Fixpoint lower (s : string) : string :=
  match s with
  | EmptyString => EmptyString
  | String c s' => String (lower_ascii c) (lower s')
  end.

(** The table of a model of the application; model names are matched
    without regard to case, so that ['libraryapp.Authors'] and
    [model_name='reviews'] name tables in the same way. *)
Definition table_of (name : string) : string :=
  app_label ++ "_" ++ lower name.

Inductive operation :=
| CreateModel (name : string) (fields : list field)
| AddField (model_name : string) (f : field).



(** The tables of a database, each with its columns. *)
Abbreviation schema := (gmap string (list field)).

(** What an operation does to the database: [CreateModel] creates a
    table, and fails when the table exists; [AddField] adds a column to
    a table, and fails when the table does not exist or has a column of
    that name. *)
Definition database_forwards (op : operation) (st : schema) : option schema :=
  match op with
  | CreateModel name fields =>
      match st !! table_of name with
      | Some _ => None
      | None => Some (<[table_of name := fields]> st)
      end
  | AddField model_name f =>
      match st !! table_of model_name with
      | None => None
      | Some fs =>
          if existsb (λ g, String.eqb (attname g) (attname f)) fs then None
          else Some (<[table_of model_name := (fs ++ [f])%list]> st)
      end
  end.

(** The operations are applied in order; the first failure stops the
    migration. *)
Definition apply (ops : list operation) (st : schema) : option schema :=
  foldl (λ acc op, acc ≫= database_forwards op) (Some st) ops.

(** The tables that a list of operations creates. *)
Definition created (ops : list operation) : list string :=
  flat_map (λ op, match op with
                  | CreateModel name _ => [table_of name]
                  | AddField _ _ => []
                  end) ops.

End Migration.

(** ** More records for the scenarios *)

Module Cases.



Definition user2 : instance :=
  {[ "id" := VInt 2; "password" := VStr "!"; "last_login" := VNone;
     "is_superuser" := VBool false; "username" := VStr "ada";
     "first_name" := VStr "Ada"; "last_name" := VStr "Lovelace";
     "email" := VStr "ada@x.com"; "is_staff" := VBool false;
     "is_active" := VBool true; "date_joined" := VDateTime 0 ]}.

(** [Scenario.db1] with a second user, a second profile and an interest
    of the first user in the book. *)
Definition profile2 : instance :=
  {[ "id" := VInt 2; "google_id" := VStr "x2"; "app_user" := VInt 2;
     "appuser_picture" := VStr "" ]}.

Definition interest1 : instance :=
  {[ "id" := VInt 1; "created_at" := VDateTime 5; "updated_at" := VDateTime 5;
     "done" := VBool false; "user" := VInt 1; "book" := VInt 7 ]}.

Definition db2 : database :=
  <["libraryapi_interest" := {[ 1 := interest1 ]}]>
    (<["libraryapi_googleuser" := {[ 1 := Scenario.profile1; 2 := profile2 ]}]>
       (<["auth_user" := {[ 1 := Scenario.user1; 2 := user2 ]}]> Scenario.db1)).





End Cases.

(** * Properties *)

(** Closed goals are decided by evaluation. *)
Ltac by_computation := apply (bool_decide_unpack _); vm_compute; exact I.

(** ** Python values *)


Lemma py_eq_str (v : value) (s : string) :
  py_eq v (VStr s) = true ↔ v = VStr s.
Proof.
  destruct v; simpl; try (split; [discriminate | congruence]).
  rewrite String.eqb_eq. split; congruence.
Qed.

Lemma py_ne_str (v : value) (s : string) :
  py_ne v (VStr s) = true ↔ v ≠ VStr s.
Proof.
  unfold py_ne. rewrite negb_true_iff, <- not_true_iff_false.
  by rewrite py_eq_str.
Qed.


(** ** The object-relational layer: saving and creating rows *)

Lemma attr_lookup (r : instance) (name : string) (v : value) :
  r !! name = Some v → attr r name = v.
Proof. unfold attr. by intros ->. Qed.

Lemma get_table_insert (db : database) (name : string) (t : table) :
  get_table (<[name := t]> db) name = t.
Proof. unfold get_table. by rewrite lookup_insert_eq. Qed.

Lemma get_table_insert_ne (db : database) (name name' : string) (t : table) :
  name ≠ name' → get_table (<[name := t]> db) name' = get_table db name'.
Proof. intros Hne. unfold get_table. by rewrite lookup_insert_ne. Qed.

(** Writing back the row that the table already holds changes nothing. *)
Lemma write_back_same (db : database) (name : string) (k : Z) (r : instance) :
  get_table db name !! k = Some r →
  <[name := <[k := r]> (get_table db name)]> db = db.
Proof.
  intros Hrow. rewrite (insert_id (get_table db name)) by done.
  unfold get_table in *. destruct (db !! name) as [t|] eqn:Ht; simpl in *.
  - by apply insert_id.
  - by rewrite lookup_empty in Hrow.
Qed.

(** The key given to a new row is the key of no row. *)
Lemma next_pk_fresh (t : table) : t !! next_pk t = None.
Proof.
  unfold next_pk.
  assert (H : ∀ k, is_Some (t !! k) → k ≤ map_fold (λ k _ acc, Z.max k acc) 0 t).
  { apply (map_fold_weak_ind
             (λ bound (m : table), ∀ k, is_Some (m !! k) → k ≤ bound)).
    - intros k [? Hk]. by rewrite lookup_empty in Hk.
    - intros i x m bound _ IH k Hk.
      destruct (decide (i = k)) as [->|Hne]; [lia|].
      rewrite lookup_insert_ne in Hk by done. specialize (IH k Hk). lia. }
  destruct (t !! (1 + _)) eqn:Hk; [|done].
  specialize (H _ (mk_is_Some _ _ Hk)). lia.
Qed.

(** What the [pre_save] hooks of a list of fields leave in an attribute. *)
Lemma pre_save_lookup (add : bool) (now : Z) (fs : list field)
    (self : instance) (n : string) :
  foldl (pre_save add now) self fs !! n
  = if existsb (λ f, String.eqb (attname f) n && sets_timestamp add f) fs
    then Some (VDateTime now)
    else self !! n.
Proof.
  induction fs as [|f fs IH] using rev_ind; [done|].
  rewrite foldl_app, existsb_app. simpl. rewrite orb_false_r.
  unfold pre_save at 1, sets_timestamp at 2.
  destruct (fkind f) as [| | | | | |auto_now auto_now_add| | |];
    rewrite ?andb_false_r, ?orb_false_r; try exact IH.
  destruct (auto_now || auto_now_add && add); simpl;
    [|by rewrite andb_false_r, orb_false_r].
  unfold setattr. destruct (String.eqb_spec (attname f) n) as [->|Hne].
  - by rewrite lookup_insert_eq, orb_true_r.
  - rewrite lookup_insert_ne by done. by rewrite orb_false_r.
Qed.

Section Saving.

Context (m : model) (now : Z) (db : database).

Lemma init_spec (kwargs : gmap string value) :
  NoDup (attname <$> columns m) →
  dom kwargs ⊆ list_to_set (attname <$> columns m) →
  ∃ self,
    init m now kwargs = Ok self
    ∧ (∀ f, f ∈ columns m →
         self !! attname f
         = Some (default (get_default now f) (kwargs !! attname f)))
    ∧ (∀ n, n ∉ attname <$> columns m → self !! n = None).
Proof.
  intros Hnd Hdom. unfold init. rewrite decide_True by done.
  eexists. split; [done|]. split.
  - intros f Hf. apply elem_of_list_to_map.
    + by rewrite <- list_fmap_compose.
    + apply list_elem_of_fmap. by exists f.
  - intros n Hn. apply not_elem_of_list_to_map.
    by rewrite <- list_fmap_compose.
Qed.

(** The attributes of an instance after the hooks and the assignment
    of the key. *)
Lemma saved_lookup (add : bool) (self : instance) (pk : Z) (n : string) :
  setattr (pre_save_all m add now self) "id" (VInt pk) !! n
  = if String.eqb "id" n then Some (VInt pk)
    else if existsb (λ f, String.eqb (attname f) n && sets_timestamp add f)
              (columns m)
         then Some (VDateTime now)
         else self !! n.
Proof.
  unfold setattr. destruct (String.eqb_spec "id" n) as [<-|Hne].
  - apply lookup_insert_eq.
  - rewrite lookup_insert_ne by done. apply pre_save_lookup.
Qed.

Lemma constraints_ok_iff (pk : Z) (r : instance) :
  constraints_ok m db pk r = true ↔
  Forall (λ f, not_null_ok r f = true
               ∧ unique_ok (get_table db (db_table m)) pk r f = true
               ∧ foreign_key_ok db r f = true)
         (columns m).
Proof.
  unfold constraints_ok. rewrite forallb_forall, Forall_forall.
  setoid_rewrite andb_true_iff. setoid_rewrite andb_true_iff.
  setoid_rewrite <- list_elem_of_In. naive_solver.
Qed.

(** The checks on a column read the row through that column only. *)
Lemma constraints_ok_transfer (pk : Z) (r r' : instance) :
  constraints_ok m db pk r = true →
  Forall (λ f, attr r' (attname f) = attr r (attname f)
               ∨ (not_null_ok r' f = true
                  ∧ is_unique f = false ∧ references f = None))
         (columns m) →
  constraints_ok m db pk r' = true.
Proof.
  rewrite !constraints_ok_iff, !Forall_forall.
  intros Hr Hsame f Hf. specialize (Hr f Hf). specialize (Hsame f Hf).
  unfold not_null_ok, unique_ok, foreign_key_ok in *.
  destruct Hsame as [->|(Hnn & -> & ->)]; [done|].
  by rewrite Hnn.
Qed.

(** A creation that fits the columns and meets the constraints inserts
    the row under the next key. *)
Lemma create_spec (kwargs : gmap string value) (self : instance) :
  init m now kwargs = Ok self →
  attr self "id" = VNone →
  integers_in_range m
    (setattr (pre_save_all m true now self) "id"
       (VInt (next_pk (get_table db (db_table m))))) = true →
  constraints_ok m db (next_pk (get_table db (db_table m)))
    (setattr (pre_save_all m true now self) "id"
       (VInt (next_pk (get_table db (db_table m))))) = true →
  create m now db kwargs
  = Ok (setattr (pre_save_all m true now self) "id"
          (VInt (next_pk (get_table db (db_table m)))),
        <[db_table m :=
            <[next_pk (get_table db (db_table m)) :=
                setattr (pre_save_all m true now self) "id"
                  (VInt (next_pk (get_table db (db_table m))))]>
              (get_table db (db_table m))]> db).
Proof.
  intros Hinit Hid Hrange Hok. unfold create, save_base.
  by rewrite Hinit, Hid, Hrange, Hok.
Qed.

Lemma save_update_spec (self r0 : instance) (k : Z) :
  self !! "id" = Some (VInt k) →
  get_table db (db_table m) !! k = Some r0 →
  integers_in_range m
    (setattr (pre_save_all m false now self) "id" (VInt k)) = true →
  constraints_ok m db k
    (setattr (pre_save_all m false now self) "id" (VInt k)) = true →
  save m now db self
  = (setattr (pre_save_all m false now self) "id" (VInt k),
     Ok (<[db_table m :=
             <[k := setattr (pre_save_all m false now self) "id" (VInt k)]>
               (get_table db (db_table m))]> db)).
Proof.
  intros Hid Hrow Hrange Hok. unfold save, save_base.
  by rewrite (attr_lookup _ _ _ Hid), Hrow, Hrange, Hok.
Qed.

(** A row that a column cannot hold is rejected, on insertion and on
    update. *)
Lemma create_out_of_range (kwargs : gmap string value) (self : instance) :
  init m now kwargs = Ok self →
  attr self "id" = VNone →
  integers_in_range m
    (setattr (pre_save_all m true now self) "id"
       (VInt (next_pk (get_table db (db_table m))))) = false →
  create m now db kwargs = Err DataError.
Proof.
  intros Hinit Hid Hrange. unfold create, save_base.
  by rewrite Hinit, Hid, Hrange.
Qed.

Lemma save_update_out_of_range (self r0 : instance) (k : Z) :
  self !! "id" = Some (VInt k) →
  get_table db (db_table m) !! k = Some r0 →
  integers_in_range m
    (setattr (pre_save_all m false now self) "id" (VInt k)) = false →
  save m now db self = (pre_save_all m false now self, Err DataError).
Proof.
  intros Hid Hrow Hrange. unfold save, save_base.
  by rewrite (attr_lookup _ _ _ Hid), Hrow, Hrange.
Qed.

(** An update succeeds when the instance fits the columns and meets the
    constraints. *)
Lemma save_update_ok (self r0 : instance) (k : Z) :
  timestamps_unconstrained m = true →
  self !! "id" = Some (VInt k) →
  get_table db (db_table m) !! k = Some r0 →
  integers_in_range m
    (setattr (pre_save_all m false now self) "id" (VInt k)) = true →
  constraints_ok m db k self = true →
  save m now db self
  = (setattr (pre_save_all m false now self) "id" (VInt k),
     Ok (<[db_table m :=
             <[k := setattr (pre_save_all m false now self) "id" (VInt k)]>
               (get_table db (db_table m))]> db)).
Proof.
  intros Hts Hid Hrow Hrange Hok. apply (save_update_spec _ r0); [done..|].
  apply (constraints_ok_transfer _ self); [done|].
  apply Forall_forall. intros f Hf.
  unfold not_null_ok, attr. rewrite saved_lookup.
  destruct (String.eqb_spec "id" (attname f)) as [<-|_];
    [left; by rewrite Hid|].
  unfold timestamps_unconstrained in Hts. rewrite forallb_forall in Hts.
  apply list_elem_of_In, Hts in Hf.
  destruct (existsb _ (columns m)); [right|by left].
  simpl in *. rewrite orb_true_r.
  apply andb_true_iff in Hf as [Hu Hr%bool_decide_eq_true].
  by apply negb_true_iff in Hu.
Qed.

(** Models without automatic timestamps. *)
Hypothesis Hauto : no_auto_timestamp m.

(** Saving an instance that has a primary key leaves the instance as
    it is and, unless the row is rejected, writes it as the row of that
    key. *)
Lemma save_keyed (self : instance) (k : Z) :
  self !! "id" = Some (VInt k) →
  save m now db self
  = (self,
     if integers_in_range m self
     then
       if constraints_ok m db k self
       then Ok (<[db_table m := <[k := self]> (get_table db (db_table m))]> db)
       else Err IntegrityError
     else Err DataError).
Proof.
  intros Hid. unfold save, save_base.
  rewrite (attr_lookup _ _ _ Hid).
  assert (Hset : ∀ add,
            setattr (pre_save_all m add now self) "id" (VInt k) = self).
  { intros add. rewrite Hauto. unfold setattr. by apply insert_id. }
  destruct (get_table db (db_table m) !! k); simpl;
    rewrite Hset, Hauto; destruct (integers_in_range m self); [|done| |done];
    by destruct (constraints_ok m db k self).
Qed.

(** Whatever the outcome of [save], it touches no attribute but the
    key. *)
Lemma save_frame (self : instance) (g : string) :
  g ≠ "id" → (save m now db self).1 !! g = self !! g.
Proof.
  intros Hg. unfold save, save_base.
  destruct (attr self "id"); simpl; try done.
  - destruct (integers_in_range _ _); simpl; [|by rewrite Hauto].
    destruct (constraints_ok _ _ _ _); simpl; rewrite Hauto; [|done].
    unfold setattr. by rewrite lookup_insert_ne.
  - destruct (get_table db (db_table m) !! z); simpl;
      (destruct (integers_in_range _ _); simpl; [|by rewrite Hauto]);
      (destruct (constraints_ok _ _ _ _); simpl; rewrite Hauto; [|done]);
      unfold setattr; by rewrite lookup_insert_ne.
Qed.

End Saving.

Lemma User_no_auto_timestamp : no_auto_timestamp User.model.
Proof. intros add now self. reflexivity. Qed.

Lemma GoogleUser_no_auto_timestamp : no_auto_timestamp GoogleUser.model.
Proof. intros add now self. reflexivity. Qed.

(** Lookups of literal keys in literal maps. *)
Ltac lookup_tac :=
  unfold setattr;
  repeat (rewrite lookup_insert_ne by done);
  first [ by rewrite lookup_insert_eq | by rewrite lookup_singleton_eq
        | by rewrite lookup_singleton_ne | by rewrite lookup_empty | done ].

(** Turn a statement over the columns of a model into one statement per
    column. *)
Ltac per_column Hcols Heq :=
  rewrite <- Forall_forall, Heq in Hcols;
  repeat (apply Forall_cons in Hcols as [? Hcols]); clear Hcols;
  simpl in *.

Ltac use_lookups :=
  repeat match goal with
         | H : ?s !! ?n = _ |- context [?s !! ?n] => rewrite H
         end.

(** Reduce [constraints_ok] for a new or updated row to the non-trivial
    checks of each column. *)
Ltac check_columns Heq :=
  apply constraints_ok_iff; rewrite Heq;
  repeat apply Forall_cons_2; try apply Forall_nil_2;
  unfold not_null_ok, unique_ok, foreign_key_ok, attr; simpl;
  rewrite ?saved_lookup; simpl;
  unfold setattr; rewrite ?lookup_insert_eq;
  repeat (rewrite lookup_insert_ne by done);
  use_lookups; simpl;
  rewrite ?get_table_insert_ne by done;
  repeat split; try done; try by apply bool_decide_eq_true.

(** ** The object-relational layer: ordered listings *)

Lemma value_leb_iff (a b : value) :
  value_leb a b = true ↔
  type_rank a < type_rank b
  ∨ (type_rank a = type_rank b
     ∧ (number_of a < number_of b
        ∨ (number_of a = number_of b
           ∧ String.leb (text_of a) (text_of b) = true))).
Proof.
  unfold value_leb.
  rewrite !orb_true_iff, !andb_true_iff, !orb_true_iff, !andb_true_iff.
  by rewrite !Z.ltb_lt, !Z.eqb_eq.
Qed.

Lemma string_leb_trans (a b c : string) :
  String.leb a b = true → String.leb b c = true → String.leb a c = true.
Proof.
  intros Hab Hbc. apply Is_true_true.
  change (String.le a c). transitivity b; by apply Is_true_true.
Qed.

Lemma value_leb_total (a b : value) :
  value_leb a b = true ∨ value_leb b a = true.
Proof.
  rewrite !value_leb_iff.
  destruct (Z.lt_trichotomy (type_rank a) (type_rank b)) as [?|[?|?]],
    (Z.lt_trichotomy (number_of a) (number_of b)) as [?|[?|?]],
    (String.leb_total (text_of a) (text_of b)); intuition lia.
Qed.

Lemma value_leb_trans (a b c : value) :
  value_leb a b = true → value_leb b c = true → value_leb a c = true.
Proof.
  rewrite !value_leb_iff. intros Hab Hbc.
  assert (String.leb (text_of a) (text_of b) = true →
          String.leb (text_of b) (text_of c) = true →
          String.leb (text_of a) (text_of c) = true)
    by apply string_leb_trans.
  destruct (String.leb (text_of a) (text_of b)),
    (String.leb (text_of b) (text_of c)),
    (String.leb (text_of a) (text_of c)); intuition (try lia; try discriminate).
Qed.

Lemma value_leb_strings (a b : string) :
  value_leb (VStr a) (VStr b) = String.leb a b.
Proof. reflexivity. Qed.


Lemma key_leb_total (o : string) (r1 r2 : instance) :
  key_leb o r1 r2 = true ∨ key_leb o r2 r1 = true.
Proof.
  unfold key_leb. destruct (parse_ordering o) as [[] name];
    apply value_leb_total.
Qed.

Lemma key_leb_trans (o : string) (r1 r2 r3 : instance) :
  key_leb o r1 r2 = true → key_leb o r2 r3 = true → key_leb o r1 r3 = true.
Proof.
  unfold key_leb. destruct (parse_ordering o) as [[] name];
    eauto using value_leb_trans.
Qed.

#[global] Instance row_le_total (ord : list string) : Total (row_le ord).
Proof.
  unfold row_le. induction ord as [|o ord IH]; intros r1 r2; [by left|].
  simpl. destruct (IH r1 r2) as [Hle|Hle]; rewrite Hle;
    destruct (key_leb_total o r1 r2) as [Hk|Hk]; rewrite Hk;
    destruct (key_leb o r1 r2), (key_leb o r2 r1); simpl; auto;
    discriminate.
Qed.

#[global] Instance row_le_trans (ord : list string) : Transitive (row_le ord).
Proof.
  unfold row_le. induction ord as [|o ord IH]; intros r1 r2 r3; [done|].
  simpl. rewrite !andb_true_iff, !orb_true_iff, !negb_true_iff.
  intros [H12 Ht12] [H23 Ht23].
  pose proof (key_leb_trans o r1 r2 r3 H12 H23) as H13.
  split; [done|].
  destruct (key_leb o r3 r1) eqn:H31; [right|by left].
  pose proof (key_leb_trans o r3 r1 r2 H31 H12) as H32.
  pose proof (key_leb_trans o r2 r3 r1 H23 H31) as H21.
  destruct Ht12 as [?|Ht12]; [congruence|].
  destruct Ht23 as [?|Ht23]; [congruence|].
  by apply (IH r1 r2 r3).
Qed.

(** A listing holds exactly the rows of the table, each row before every
    row that [Meta.ordering] places after it. *)
Lemma all_sorted (m : model) (db : database) :
  all m db ≡ₚ rows m db ∧ StronglySorted (row_le (ordering m)) (all m db).
Proof.
  split.
  - apply merge_sort_Permutation.
  - apply (StronglySorted_merge_sort _).
Qed.

Lemma StronglySorted_impl {A} (R1 R2 : relation A) (l : list A) :
  (∀ x y, R1 x y → R2 x y) → StronglySorted R1 l → StronglySorted R2 l.
Proof.
  intros Himpl. induction 1 as [|x l Hl IH Hx]; constructor; [done|].
  eapply Forall_impl; [exact Hx|]. intros y. apply Himpl.
Qed.

Lemma row_le_ascending (name : string) (r1 r2 : instance) :
  parse_ordering name = (false, name) →
  row_le [name] r1 r2 → ascending name r1 r2.
Proof.
  unfold row_le, ascending. simpl. unfold key_leb. intros ->.
  by intros [? _]%andb_true_iff.
Qed.

Lemma row_le_descending (name : string) (r1 r2 : instance) :
  row_le [String "-" name] r1 r2 → descending name r1 r2.
Proof.
  unfold row_le, descending. simpl. unfold key_leb. simpl.
  by intros [? _]%andb_true_iff.
Qed.

(** ** Identity adapter: the diff-and-update loop *)

Lemma merged_empty (stored : value) : merged stored (VStr "") = stored.
Proof. unfold merged. simpl. by rewrite andb_false_r. Qed.

Lemma merged_changed (stored incoming : value) :
  incoming ≠ VStr "" → py_ne stored incoming = true →
  merged stored incoming = incoming.
Proof.
  intros Hne Hdiff. unfold merged.
  apply py_ne_str in Hne. by rewrite Hdiff, Hne.
Qed.

Lemma merged_equal (stored incoming : value) :
  py_eq stored incoming = true → merged stored incoming = stored.
Proof. intros Heq. unfold merged, py_ne. by rewrite Heq. Qed.

Lemma merged_cases (stored incoming : value) :
  merged stored incoming = stored
  ∨ (merged stored incoming = incoming
     ∧ incoming ≠ VStr "" ∧ py_ne stored incoming = true).
Proof.
  unfold merged.
  destruct (py_ne stored incoming) eqn:Hd; simpl; [|by left].
  destruct (py_ne incoming (VStr "")) eqn:He; [|by left].
  right. by rewrite <- py_ne_str.
Qed.

Lemma update_fields_spec (data : list (string * value)) (self : object) :
  NoDup data.*1 →
  (∀ f, f ∈ data.*1 → is_Some (self !! f)) →
  ∃ self',
    update_fields data self = (self', Ok tt)
    ∧ (∀ f v stored, (f, v) ∈ data → self !! f = Some stored →
         self' !! f = Some (merged stored v))
    ∧ (∀ g, g ∉ data.*1 → self' !! g = self !! g).
Proof.
  revert self. induction data as [|[f v] data IH]; intros self Hnd Hall.
  - exists self. split; [done|]. split; [|done].
    intros ??? Hin. by apply elem_of_nil in Hin.
  - simpl in Hnd. apply NoDup_cons in Hnd as [Hf Hnd].
    destruct (Hall f) as [stored Hstored]; [simpl; left|].
    simpl. unfold getattr. rewrite Hstored.
    set (self1 := if py_ne stored v && py_ne v (VStr "")
                  then setattr self f v else self).
    assert (Hvisited : self1 !! f = Some (merged stored v)).
    { unfold self1, merged, setattr.
      destruct (py_ne stored v && py_ne v (VStr "")); [|done].
      apply lookup_insert_eq. }
    assert (Hother : ∀ g, g ≠ f → self1 !! g = self !! g).
    { intros g Hg. unfold self1, setattr.
      destruct (py_ne stored v && py_ne v (VStr "")); [|done].
      by apply lookup_insert_ne. }
    destruct (IH self1 Hnd) as (self' & Hrun & Hin & Hout).
    { intros g Hg. rewrite Hother; [apply Hall; by right|].
      intros ->. contradiction. }
    exists self'. split; [done|]. split.
    + intros g w st Hgw Hst. apply elem_of_cons in Hgw as [[= -> ->]|Hgw].
      * rewrite Hout by done. rewrite Hvisited. congruence.
      * apply Hin; [done|]. rewrite Hother; [done|].
        intros ->. apply Hf. apply list_elem_of_fmap. by exists (f, w).
    + intros g Hg. apply not_elem_of_cons in Hg as [Hgf Hg].
      rewrite Hout by done. by apply Hother.
Qed.


(** ** Identity adapter: [UserProxy.check_diff] *)

Lemma check_diff_run (now : Z) (db : database) (self : instance)
    (idinfo : gmap string value) (k : Z) :
  self !! "id" = Some (VInt k) →
  Forall (λ p, UserProxy.present self idinfo p = true) UserProxy.recognized →
  ∃ self',
    UserProxy.check_diff now db self idinfo
    = (self',
       if constraints_ok User.model db k self'
       then Ok (<["auth_user" := <[k := self']> (get_table db "auth_user")]> db)
       else Err IntegrityError)
    ∧ (∀ f key stored incoming,
         (f, key) ∈ UserProxy.recognized →
         self !! f = Some stored → idinfo !! key = Some incoming →
         self' !! f = Some (merged stored incoming))
    ∧ (∀ g, g ∉ UserProxy.recognized.*1 → self' !! g = self !! g).
Proof.
  intros Hid Hpresent.
  unfold UserProxy.recognized in Hpresent.
  repeat (apply Forall_cons in Hpresent as [?%bool_decide_eq_true Hpresent]).
  simpl in *. destruct_and!.
  repeat match goal with H : is_Some (_ !! _) |- _ => destruct H as [? H] end.
  unfold UserProxy.check_diff, getitem.
  repeat match goal with H : idinfo !! _ = Some _ |- _ => rewrite H end.
  simpl bind. cbv beta iota.
  match goal with
  | |- context [update_fields ?data self] =>
      destruct (update_fields_spec data self) as (self' & Hrun & Hin & Hout)
  end.
  { by_computation. }
  { simpl. intros f Hf.
    repeat (apply elem_of_cons in Hf as [->|Hf]; [eauto|]).
    by apply elem_of_nil in Hf. }
  exists self'. rewrite Hrun. split; [|split].
  - apply (save_keyed UserProxy.model); [apply User_no_auto_timestamp|].
    rewrite Hout; [done|]. by_computation.
  - intros f key stored incoming Hrec Hst Hinc. apply Hin; [|done].
    unfold UserProxy.recognized in Hrec.
    repeat (apply elem_of_cons in Hrec as [[= -> ->]|Hrec];
            [ simplify_eq; set_solver |]).
    by apply elem_of_nil in Hrec.
  - intros g Hg. apply Hout. exact Hg.
Qed.

(** C3. A call of [UserProxy.check_diff] on a saved user, with a payload
    that carries the four recognised values: a field whose incoming
    value is the empty string keeps its stored value; a field whose
    incoming value is not empty and differs ([!=]) from the stored one
    takes the incoming value; no attribute other than the four is
    changed. The call then saves the instance: unless the database
    rejects the row, it becomes the row of the user's key. *)
Theorem check_diff_overwrites_changed_nonempty_fields
    (now : Z) (db : database) (self : instance)
    (idinfo : gmap string value) (k : Z) :
  self !! "id" = Some (VInt k) →
  Forall (λ p, UserProxy.present self idinfo p = true) UserProxy.recognized →
  ∃ self',
    UserProxy.check_diff now db self idinfo
    = (self',
       if constraints_ok User.model db k self'
       then Ok (<["auth_user" := <[k := self']> (get_table db "auth_user")]> db)
       else Err IntegrityError)
    ∧ (∀ f key stored incoming,
         (f, key) ∈ UserProxy.recognized →
         self !! f = Some stored → idinfo !! key = Some incoming →
         (incoming = VStr "" → self' !! f = Some stored)
         ∧ (incoming ≠ VStr "" → py_ne stored incoming = true →
            self' !! f = Some incoming))
    ∧ (∀ g, g ∉ ["username"; "email"; "first_name"; "last_name"] →
         self' !! g = self !! g).
Proof.
  intros Hid Hpresent.
  destruct (check_diff_run now db self idinfo k Hid Hpresent)
    as (self' & Hcall & Hin & Hout).
  exists self'. split; [exact Hcall|]. split; [|exact Hout].
  intros f key stored incoming Hrec Hst Hinc.
  rewrite (Hin f key stored incoming Hrec Hst Hinc). split.
  - intros ->. by rewrite merged_empty.
  - intros Hne Hdiff. by rewrite merged_changed.
Qed.

(** The scenario of the specification: an empty display name and an empty
    family name leave the stored ones, the e-mail address and the given
    name are replaced, and the row is written. *)
Lemma check_diff_scenario :
  UserProxy.check_diff 0 Scenario.db0 Scenario.user1 Payload.partial
  = (Scenario.user1_reconciled,
     Ok (<["auth_user" := {[ 1 := Scenario.user1_reconciled ]}]> Scenario.db0))
  ∧ Scenario.user1_reconciled !! "username" = Some (VStr "old")
  ∧ Scenario.user1_reconciled !! "email" = Some (VStr "a@b.com")
  ∧ Scenario.user1_reconciled !! "first_name" = Some (VStr "Amir")
  ∧ Scenario.user1_reconciled !! "last_name" = Some (VStr "Name").
Proof. by_computation. Qed.

Lemma check_diff_overwrites_changed_nonempty_fields_witness :
  ∃ self',
    UserProxy.check_diff 0 Scenario.db0 Scenario.user1 Payload.partial
    = (self',
       if constraints_ok User.model Scenario.db0 1 self'
       then Ok (<["auth_user" := <[1 := self']>
                   (get_table Scenario.db0 "auth_user")]> Scenario.db0)
       else Err IntegrityError)
    ∧ (∀ f key stored incoming,
         (f, key) ∈ UserProxy.recognized →
         Scenario.user1 !! f = Some stored →
         Payload.partial !! key = Some incoming →
         (incoming = VStr "" → self' !! f = Some stored)
         ∧ (incoming ≠ VStr "" → py_ne stored incoming = true →
            self' !! f = Some incoming))
    ∧ (∀ g, g ∉ ["username"; "email"; "first_name"; "last_name"] →
         self' !! g = Scenario.user1 !! g).
Proof.
  apply (check_diff_overwrites_changed_nonempty_fields
           0 Scenario.db0 Scenario.user1 Payload.partial 1).
  - by_computation.
  - by_computation.
Defined.

(** ** Identity adapter: a payload that changes nothing *)

(** C4. When every incoming recognised value equals the stored one, the
    call leaves the instance as it is, and saving it writes back the row
    that the table already holds: instance and database are the same
    after the call as before it. *)
Theorem check_diff_equal_values_changes_nothing
    (now : Z) (db : database) (self : instance)
    (idinfo : gmap string value) (k : Z) :
  self !! "id" = Some (VInt k) →
  get_table db "auth_user" !! k = Some self →
  Forall (λ p, UserProxy.agrees self idinfo p = true) UserProxy.recognized →
  UserProxy.check_diff now db self idinfo
  = (self,
     if constraints_ok User.model db k self then Ok db
     else Err IntegrityError).
Proof.
  intros Hid Hrow Hagree.
  destruct (check_diff_run now db self idinfo k Hid)
    as (self' & Hcall & Hin & Hout).
  { eapply Forall_impl; [exact Hagree|]. intros p Hp.
    unfold UserProxy.agrees in Hp. unfold UserProxy.present.
    apply bool_decide_eq_true.
    destruct (self !! p.1), (idinfo !! p.2); try discriminate. eauto. }
  assert (Hsame : self' = self).
  { apply map_eq. intros g.
    destruct (decide (g ∈ UserProxy.recognized.*1)) as [Hg|Hg];
      [|by apply Hout].
    apply list_elem_of_fmap in Hg as ([f key] & -> & Hrec). simpl.
    pose proof (proj1 (Forall_forall _ _) Hagree _ Hrec) as Hp.
    unfold UserProxy.agrees in Hp. simpl in Hp.
    destruct (self !! f) as [stored|] eqn:Hst; [|discriminate].
    destruct (idinfo !! key) as [incoming|] eqn:Hinc; [|discriminate].
    rewrite (Hin f key stored incoming Hrec Hst Hinc).
    by rewrite merged_equal. }
  rewrite Hcall, Hsame.
  by rewrite (write_back_same db "auth_user" k self Hrow).
Qed.

Lemma check_diff_equal_values_changes_nothing_witness :
  UserProxy.check_diff 5 Scenario.db0 Scenario.user1 Payload.unchanged
  = (Scenario.user1, Ok Scenario.db0).
Proof.
  assert (Hok : constraints_ok User.model Scenario.db0 1 Scenario.user1 = true)
    by by_computation.
  assert (Hid : Scenario.user1 !! "id" = Some (VInt 1)) by by_computation.
  assert (Hrow : get_table Scenario.db0 "auth_user" !! 1 = Some Scenario.user1)
    by by_computation.
  assert (Hagree : Forall (λ p, UserProxy.agrees Scenario.user1
                                   Payload.unchanged p = true)
                     UserProxy.recognized) by by_computation.
  rewrite (check_diff_equal_values_changes_nothing
             5 Scenario.db0 Scenario.user1 Payload.unchanged 1
             Hid Hrow Hagree).
  by rewrite Hok.
Defined.

(** ** Identity adapter: [GoogleUser.check_diff] *)

(** With any payload at all, and whether or not the call succeeds, only
    the picture (and the key of an instance that had none) can change. *)
Lemma picture_check_diff_frame (now : Z) (db : database) (self : instance)
    (idinfo : gmap string value) (g : string) :
  g ≠ "appuser_picture" → g ≠ "id" →
  (GoogleUser.check_diff now db self idinfo).1 !! g = self !! g.
Proof.
  intros Hpic Hid. unfold GoogleUser.check_diff, getitem.
  destruct (idinfo !! "picture") as [incoming|]; simpl; [|done].
  unfold getattr. destruct (self !! "appuser_picture") as [stored|]; simpl;
    [|done].
  rewrite save_frame by (done || apply GoogleUser_no_auto_timestamp).
  destruct (py_ne stored incoming && py_ne incoming (VStr "")); [|done].
  unfold setattr. by rewrite lookup_insert_ne.
Qed.

(** On the instance the external identifier survives any sequence of
    reconciliations. *)
Lemma google_id_invariant (now : Z) (db : database)
    (payloads : list (gmap string value)) (self : instance) :
  foldl (λ s idinfo, (GoogleUser.check_diff now db s idinfo).1) self payloads
    !! "google_id"
  = self !! "google_id".
Proof.
  revert self. induction payloads as [|idinfo payloads IH]; intros self;
    [done|].
  simpl. rewrite IH. by apply picture_check_diff_frame.
Qed.

(** C5, as stated, fails on the immutability of [google_id]. The
    profile stored under key 1 has the identifier ["x1"]. It is
    fetched, its [google_id] is assigned, and [check_diff] is called
    with a payload whose picture is the stored one: the call assigns
    nothing, saves the instance, and the stored identifier is now
    ["x2"]. *)
Lemma google_id_changed_by_picture_check_diff :
  get_table Scenario.db0 "libraryapi_googleuser" !! 1
  = Some Scenario.profile1
  ∧ Scenario.profile1 !! "google_id" = Some (VStr "x1")
  ∧ Payload.unchanged !! "picture" = Scenario.profile1 !! "appuser_picture"
  ∧ GoogleUser.check_diff 0 Scenario.db0
      (setattr Scenario.profile1 "google_id" (VStr "x2")) Payload.unchanged
    = (setattr Scenario.profile1 "google_id" (VStr "x2"),
       Ok (<["libraryapi_googleuser" :=
               {[ 1 := setattr Scenario.profile1 "google_id" (VStr "x2") ]}]>
             Scenario.db0))
  ∧ setattr Scenario.profile1 "google_id" (VStr "x2") !! "google_id"
    ≠ Scenario.profile1 !! "google_id".
Proof. by_computation. Qed.

(** C5, amended. [GoogleUser.check_diff] applies the diff-and-update
    policy to the picture alone: [appuser_picture] takes the incoming
    value only if that value is not empty and differs from the stored
    one, and keeps its value otherwise; every other attribute of the
    instance, the external [google_id] and the link to the user among
    them, is what it was before the call. The call then saves the whole
    instance: when it succeeds, the row of the instance's key is the
    instance, so that a field other than the picture has in the row the
    value it had before exactly when the instance carried that value.
    Nothing makes [google_id] immutable. *)
Theorem picture_check_diff_changes_only_picture_of_instance
    (now : Z) (db : database) (self : instance)
    (idinfo : gmap string value) (k : Z) (stored incoming : value) :
  self !! "id" = Some (VInt k) →
  self !! "appuser_picture" = Some stored →
  idinfo !! "picture" = Some incoming →
  ∃ self',
    GoogleUser.check_diff now db self idinfo
    = (self',
       if constraints_ok GoogleUser.model db k self'
       then Ok (<["libraryapi_googleuser" :=
                   <[k := self']> (get_table db "libraryapi_googleuser")]> db)
       else Err IntegrityError)
    ∧ self' !! "appuser_picture"
      = Some (if py_ne stored incoming && py_ne incoming (VStr "")
              then incoming else stored)
    ∧ (self' !! "appuser_picture" ≠ Some stored →
       incoming ≠ VStr "" ∧ py_ne stored incoming = true)
    ∧ (∀ g, g ≠ "appuser_picture" → self' !! g = self !! g)
    ∧ self' !! "google_id" = self !! "google_id"
    ∧ self' !! "app_user" = self !! "app_user"
    ∧ (∀ db',
         (GoogleUser.check_diff now db self idinfo).2 = Ok db' →
         get_table db' "libraryapi_googleuser" !! k = Some self'
         ∧ (∀ j, j ≠ k →
              get_table db' "libraryapi_googleuser" !! j
              = get_table db "libraryapi_googleuser" !! j)
         ∧ (∀ row g,
              get_table db "libraryapi_googleuser" !! k = Some row →
              g ≠ "appuser_picture" →
              self' !! g = row !! g ↔ self !! g = row !! g)).
Proof.
  intros Hid Hstored Hinc.
  destruct (update_fields_spec [("appuser_picture", incoming)] self)
    as (self' & Hrun & Hin & Hout).
  { apply NoDup_singleton. }
  { intros f ->%list_elem_of_singleton. eauto. }
  assert (Hpic : self' !! "appuser_picture" = Some (merged stored incoming)).
  { apply Hin; [apply list_elem_of_singleton|]; done. }
  assert (Hframe : ∀ g, g ≠ "appuser_picture" → self' !! g = self !! g).
  { intros g Hg. apply Hout. simpl. by intros ->%list_elem_of_singleton. }
  assert (Hcall : GoogleUser.check_diff now db self idinfo
            = (self',
               if constraints_ok GoogleUser.model db k self'
               then Ok (<["libraryapi_googleuser" :=
                           <[k := self']>
                             (get_table db "libraryapi_googleuser")]> db)
               else Err IntegrityError)).
  { unfold GoogleUser.check_diff, getitem. rewrite Hinc. simpl bind.
    cbv beta iota. rewrite Hrun.
    apply (save_keyed GoogleUser.model); [apply GoogleUser_no_auto_timestamp|].
    by rewrite Hframe. }
  exists self'. split; [exact Hcall|].
  split; [exact Hpic|]. split; [|split; [exact Hframe|]].
  - rewrite Hpic. intros Hchanged.
    destruct (merged_cases stored incoming) as [Heq|(_ & ? & ?)]; [|done].
    by rewrite Heq in Hchanged.
  - split; [by apply Hframe|]. split; [by apply Hframe|].
    intros db' Hwritten. rewrite Hcall in Hwritten. simpl in Hwritten.
    destruct (constraints_ok GoogleUser.model db k self'); [|done].
    injection Hwritten as <-. rewrite get_table_insert.
    split; [apply lookup_insert_eq|]. split.
    + intros j Hj. by rewrite lookup_insert_ne.
    + intros row g _ Hg. by rewrite (Hframe g Hg).
Qed.

Lemma picture_check_diff_changes_only_picture_of_instance_witness :
  ∃ self',
    (GoogleUser.check_diff 0 Scenario.db0 Scenario.profile1
       Payload.new_picture).1 = self'
    ∧ self' !! "appuser_picture" = Some (VStr "http://p/2.png")
    ∧ self' !! "google_id" = Some (VStr "x1")
    ∧ self' !! "app_user" = Some (VInt 1).
Proof.
  destruct (picture_check_diff_changes_only_picture_of_instance
              0 Scenario.db0 Scenario.profile1 Payload.new_picture 1
              (VStr "http://p/1.png") (VStr "http://p/2.png")
              eq_refl eq_refl eq_refl)
    as (self' & Hcall & Hpic & _ & _ & Hgid & Huser & _).
  exists self'. rewrite Hcall. repeat split; assumption.
Defined.

(** ** Catalog: the availability of a book *)

Lemma status_of_quantity (self : instance) (q : Z) :
  self !! "quantity" = Some (VInt q) →
  Book.status self = Ok (if q <=? 0 then "Not Available" else "Available").
Proof.
  intros Hq. unfold Book.status, Book._check_status, getattr.
  rewrite Hq. simpl. by destruct (q <=? 0).
Qed.

(** C2. For every Book and every integer quantity, zero and negative
    ones included, [status] is "Available" exactly when the quantity is
    positive and "Not Available" otherwise. The value is computed from
    [quantity] at each read: [status] is not a column of the model, an
    attribute of that name left on the instance is ignored, and a read
    that follows an assignment of [quantity] sees the new quantity. *)
Theorem status_available_iff_quantity_positive
    (self : instance) (q q' : Z) (stale : value) :
  let book := setattr self "quantity" (VInt q) in
  (Book.status book = Ok "Available" ↔ 0 < q)
  ∧ (Book.status book = Ok "Not Available" ↔ q ≤ 0)
  ∧ ("status" ∉ attname <$> fields Book.model)
  ∧ Book.status (setattr book "status" stale) = Book.status book
  ∧ Book.status (setattr book "quantity" (VInt q'))
    = Ok (if q' <=? 0 then "Not Available" else "Available").
Proof.
  intros book.
  assert (Hb : Book.status book
               = Ok (if q <=? 0 then "Not Available" else "Available")).
  { apply status_of_quantity. unfold book, setattr. apply lookup_insert_eq. }
  repeat split.
  - rewrite Hb. destruct (Z.leb_spec q 0); [discriminate | lia].
  - rewrite Hb. destruct (Z.leb_spec q 0); [lia | done].
  - rewrite Hb. destruct (Z.leb_spec q 0); [lia | discriminate].
  - rewrite Hb. destruct (Z.leb_spec q 0); [done | lia].
  - by_computation.
  - rewrite Hb. apply status_of_quantity. unfold setattr.
    rewrite lookup_insert_ne by done. apply lookup_insert_eq.
  - apply status_of_quantity. unfold setattr. apply lookup_insert_eq.
Qed.

(** The scenario of the specification: a book with quantity 0 is not
    available, and is available once its quantity is 3. *)
Lemma dune_scenario :
  Book.status Scenario.dune = Ok "Not Available"
  ∧ Book.status (setattr Scenario.dune "quantity" (VInt 3)) = Ok "Available".
Proof. by_computation. Qed.

(** ** Catalog: the order of listings *)

(** C6. Whatever rows the tables hold, a listing returns exactly those
    rows, and: Authors in ascending order of [name]; Categories in
    ascending order of [name]; Books in ascending order of [title];
    History and Interest in descending order of [created_at], the most
    recently created first. *)
Theorem listings_follow_meta_ordering (db : database) :
  (all Author.model db ≡ₚ rows Author.model db
   ∧ StronglySorted (ascending "name") (all Author.model db))
  ∧ (all Category.model db ≡ₚ rows Category.model db
     ∧ StronglySorted (ascending "name") (all Category.model db))
  ∧ (all Book.model db ≡ₚ rows Book.model db
     ∧ StronglySorted (ascending "title") (all Book.model db))
  ∧ (all History.model db ≡ₚ rows History.model db
     ∧ StronglySorted (descending "created_at") (all History.model db))
  ∧ (all Interest.model db ≡ₚ rows Interest.model db
     ∧ StronglySorted (descending "created_at") (all Interest.model db)).
Proof.
  repeat split; try apply all_sorted;
    (eapply StronglySorted_impl; [|apply all_sorted]); intros r1 r2;
    first [ by apply row_le_ascending | apply row_le_descending ].
Qed.

(** Between text values the order is that of the strings, between
    timestamps that of the integers. *)
Lemma ascending_names (name : string) (r1 r2 : instance) (a b : string) :
  r1 !! name = Some (VStr a) → r2 !! name = Some (VStr b) →
  ascending name r1 r2 ↔ String.leb a b = true.
Proof.
  intros H1 H2. unfold ascending.
  by rewrite (attr_lookup _ _ _ H1), (attr_lookup _ _ _ H2), value_leb_strings.
Qed.


Lemma authors_listing_example :
  (λ r, attr r "name") <$> all Author.model Scenario.db0
  = [VStr "Asimov"; VStr "Herbert"; VStr "Le Guin"].
Proof. by vm_compute. Qed.

(** ** Engagement: ratings *)

Lemma Ratings_columns :
  columns Ratings.model
  = [pk_field; BaseInfo.created_at; BaseInfo.updated_at;
     Ratings.comment; Ratings.score; Ratings.user; Ratings.book].
Proof. reflexivity. Qed.

(** The only integer column of a rating is the score. *)
Lemma Ratings_in_range (r : instance) :
  integers_in_range Ratings.model r
  = match attr r "score" with
    | VInt z => (integer_min <=? z) && (z <=? integer_max)
    | _ => true
    end.
Proof.
  unfold integers_in_range. rewrite Ratings_columns. simpl.
  unfold in_range at 1. simpl. rewrite andb_true_r.
  by destruct (attr r "score").
Qed.

Lemma in_column_range (z : Z) :
  (integer_min <=? z) && (z <=? integer_max) = true
  ↔ integer_min ≤ z ≤ integer_max.
Proof. rewrite andb_true_iff, !Z.leb_le. tauto. Qed.

(** C7, as stated, fails for large scores. With the user and the book
    of the scenario, a rating with the score 5 is created, and so is one
    with the least score that the column holds; a rating with the score
    10^30 is rejected by the database, and so is one with the score
    2^31. *)
Lemma rating_score_beyond_column_rejected :
  is_Some (get_table Scenario.db0 "auth_user" !! 1)
  ∧ is_Some (get_table Scenario.db0 "libraryapi_book" !! 7)
  ∧ (∃ out,
       create Ratings.model 0 Scenario.db0
         {[ "comment" := VStr ""; "score" := VInt 5;
            "user" := VInt 1; "book" := VInt 7 ]}
       = Ok out)
  ∧ create Ratings.model 0 Scenario.db0
      {[ "comment" := VStr "";
         "score" := VInt 1000000000000000000000000000000;
         "user" := VInt 1; "book" := VInt 7 ]}
    = Err DataError
  ∧ create Ratings.model 0 Scenario.db0
      {[ "comment" := VStr ""; "score" := VInt 2147483648;
         "user" := VInt 1; "book" := VInt 7 ]}
    = Err DataError.
Proof.
  split; [by_computation|]. split; [by_computation|]. split.
  - destruct (create Ratings.model 0 Scenario.db0
                {[ "comment" := VStr ""; "score" := VInt 5;
                   "user" := VInt 1; "book" := VInt 7 ]}) as [out|e] eqn:H.
    + by exists out.
    + exfalso. revert H. by_computation.
  - split; by_computation.
Qed.

(** C7, amended. For an existing user and an existing book, creating a
    Rating with any score that the integer column holds, zero and
    negative ones included, succeeds, and the row that is written holds
    that score unchanged; a later update of the score to any other
    integer of the column succeeds too. The models put no bound on the
    score: the bound is the column's, and a score beyond it is rejected
    by the database, at creation and at update. *)
Theorem rating_accepts_every_score_of_the_column
    (score now : Z) (db : database) (comment : string) (user book : Z) :
  is_Some (get_table db "auth_user" !! user) →
  is_Some (get_table db "libraryapi_book" !! book) →
  let t := get_table db "libraryapi_ratings" in
  let pk := next_pk t in
  let kwargs : gmap string value :=
    {[ "comment" := VStr comment; "score" := VInt score;
       "user" := VInt user; "book" := VInt book ]} in
  (integer_min ≤ score ≤ integer_max →
   ∃ self',
     create Ratings.model now db kwargs
     = Ok (self', <["libraryapi_ratings" := <[pk := self']> t]> db)
     ∧ t !! pk = None
     ∧ self' !! "id" = Some (VInt pk)
     ∧ self' !! "score" = Some (VInt score)
     ∧ (∀ (score' later : Z),
          integer_min ≤ score' ≤ integer_max →
          ∃ self'',
            save Ratings.model later
              (<["libraryapi_ratings" := <[pk := self']> t]> db)
              (setattr self' "score" (VInt score'))
            = (self'',
               Ok (<["libraryapi_ratings" := <[pk := self'']> t]> db))
            ∧ self'' !! "score" = Some (VInt score'))
     ∧ (∀ (score' later : Z),
          ¬ integer_min ≤ score' ≤ integer_max →
          (save Ratings.model later
             (<["libraryapi_ratings" := <[pk := self']> t]> db)
             (setattr self' "score" (VInt score'))).2
          = Err DataError))
  ∧ (¬ integer_min ≤ score ≤ integer_max →
     create Ratings.model now db kwargs = Err DataError).
Proof.
  intros Huser Hbook t pk kwargs0.
  remember kwargs0 as kwargs eqn:Hkw. unfold kwargs0 in Hkw. clear kwargs0.
  assert (Hk : kwargs !! "id" = None ∧ kwargs !! "created_at" = None
               ∧ kwargs !! "updated_at" = None
               ∧ kwargs !! "comment" = Some (VStr comment)
               ∧ kwargs !! "score" = Some (VInt score)
               ∧ kwargs !! "user" = Some (VInt user)
               ∧ kwargs !! "book" = Some (VInt book)).
  { subst kwargs. repeat split; lookup_tac. }
  destruct Hk as (Kid & Kc & Ku & Kcomment & Kscore & Kuser & Kbook).
  destruct (init_spec Ratings.model now kwargs) as (self & Hinit & Hcols & _).
  { by_computation. }
  { subst kwargs. by_computation. }
  per_column Hcols Ratings_columns.
  rewrite ?Kid, ?Kc, ?Ku, ?Kcomment, ?Kscore, ?Kuser, ?Kbook in *.
  simpl in *.
  set (self' := setattr (pre_save_all Ratings.model true now self) "id" (VInt pk)).
  assert (Hattrs : self' !! "id" = Some (VInt pk)
                   ∧ self' !! "comment" = Some (VStr comment)
                   ∧ self' !! "score" = Some (VInt score)
                   ∧ self' !! "user" = Some (VInt user)
                   ∧ self' !! "book" = Some (VInt book)
                   ∧ self' !! "created_at" = Some (VDateTime now)
                   ∧ self' !! "updated_at" = Some (VDateTime now)).
  { unfold self'. rewrite !saved_lookup. simpl. by repeat split. }
  destruct Hattrs as (Aid & Acomment & Ascore & Auser & Abook & Ac & Au).
  assert (Hfits : integers_in_range Ratings.model self'
                  = (integer_min <=? score) && (score <=? integer_max)).
  { by rewrite Ratings_in_range, (attr_lookup _ _ _ Ascore). }
  assert (Hupdated : ∀ score' later,
            attr (setattr (pre_save_all Ratings.model false later
                             (setattr self' "score" (VInt score')))
                    "id" (VInt pk)) "score" = VInt score').
  { intros score' later. unfold attr. rewrite saved_lookup. simpl.
    unfold setattr. by rewrite lookup_insert_eq. }
  split.
  - intros Hscore.
    assert (Hcreated : create Ratings.model now db kwargs
              = Ok (self', <["libraryapi_ratings" := <[pk := self']> t]> db)).
    { apply (create_spec _ _ _ _ self Hinit); [by apply attr_lookup| |].
      - change (integers_in_range Ratings.model self' = true).
        rewrite Hfits. by apply in_column_range.
      - check_columns Ratings_columns. }
    exists self'. split; [done|]. split; [apply next_pk_fresh|].
    split; [done|]. split; [done|]. split.
    + intros score' later Hscore'. eexists. split.
      * rewrite (save_update_ok Ratings.model later _ _ self' pk).
        -- simpl db_table.
           rewrite get_table_insert, insert_insert_eq, insert_insert_eq.
           reflexivity.
        -- by_computation.
        -- unfold setattr. by rewrite lookup_insert_ne.
        -- simpl db_table. rewrite get_table_insert. apply lookup_insert_eq.
        -- rewrite Ratings_in_range, Hupdated. by apply in_column_range.
        -- check_columns Ratings_columns.
      * rewrite saved_lookup. simpl. unfold setattr. apply lookup_insert_eq.
    + intros score' later Hscore'.
      rewrite (save_update_out_of_range Ratings.model later _ _ self' pk);
        [done| | |].
      * unfold setattr. by rewrite lookup_insert_ne.
      * simpl db_table. rewrite get_table_insert. apply lookup_insert_eq.
      * rewrite Ratings_in_range, Hupdated. apply not_true_iff_false.
        by rewrite in_column_range.
  - intros Hscore.
    apply (create_out_of_range _ _ _ _ self Hinit); [by apply attr_lookup|].
    change (integers_in_range Ratings.model self' = false).
    rewrite Hfits. apply not_true_iff_false.
    by rewrite in_column_range.
Qed.

Lemma rating_accepts_every_score_of_the_column_witness :
  ∃ self' db',
    create Ratings.model 0 Scenario.db0
      {[ "comment" := VStr "unrated"; "score" := VInt (-2147483648);
         "user" := VInt 1; "book" := VInt 7 ]}
    = Ok (self', db')
    ∧ self' !! "score" = Some (VInt (-2147483648)).
Proof.
  assert (Huser : is_Some (get_table Scenario.db0 "auth_user" !! 1))
    by by_computation.
  assert (Hbook : is_Some (get_table Scenario.db0 "libraryapi_book" !! 7))
    by by_computation.
  assert (Hscore : integer_min ≤ -2147483648 ≤ integer_max)
    by (unfold integer_min, integer_max; lia).
  pose proof (rating_accepts_every_score_of_the_column (-2147483648) 0
                Scenario.db0 "unrated" 1 7 Huser Hbook) as H.
  cbv zeta in H. destruct H as [H _].
  destruct (H Hscore) as (self' & Hcreate & _ & _ & Hstored & _).
  eexists self', _. split; [exact Hcreate | exact Hstored].
Defined.

(** ** Engagement: interest records *)

Lemma Interest_columns :
  columns Interest.model
  = [pk_field; BaseInfo.created_at; BaseInfo.updated_at;
     Interest.done; Interest.user; Interest.book].
Proof. reflexivity. Qed.

(** C8. Creating an Interest record for a user and a book succeeds
    whatever Interest rows the table already holds, rows for the same
    pair included: the new row takes a key that no row has, and every
    row that was there is still there. *)
Theorem interest_create_never_rejected_as_duplicate
    (now : Z) (db : database) (user book : Z) :
  is_Some (get_table db "auth_user" !! user) →
  is_Some (get_table db "libraryapi_book" !! book) →
  let t := get_table db "libraryapi_interest" in
  let pk := next_pk t in
  ∃ self',
    create Interest.model now db {[ "user" := VInt user; "book" := VInt book ]}
    = Ok (self', <["libraryapi_interest" := <[pk := self']> t]> db)
    ∧ self' !! "id" = Some (VInt pk)
    ∧ self' !! "user" = Some (VInt user)
    ∧ self' !! "book" = Some (VInt book)
    ∧ self' !! "done" = Some (VBool false)
    ∧ (∀ j r, t !! j = Some r →
         j ≠ pk ∧ <[pk := self']> t !! j = Some r).
Proof.
  intros Huser Hbook t pk.
  remember ({[ "user" := VInt user; "book" := VInt book ]}
            : gmap string value) as kwargs eqn:Hkw.
  assert (Hk : kwargs !! "id" = None ∧ kwargs !! "created_at" = None
               ∧ kwargs !! "updated_at" = None ∧ kwargs !! "done" = None
               ∧ kwargs !! "user" = Some (VInt user)
               ∧ kwargs !! "book" = Some (VInt book)).
  { subst kwargs. repeat split; lookup_tac. }
  destruct Hk as (Kid & Kc & Ku & Kdone & Kuser & Kbook).
  destruct (init_spec Interest.model now kwargs) as (self & Hinit & Hcols & _).
  { by_computation. }
  { subst kwargs. by_computation. }
  per_column Hcols Interest_columns.
  rewrite ?Kid, ?Kc, ?Ku, ?Kdone, ?Kuser, ?Kbook in *. simpl in *.
  set (self' := setattr (pre_save_all Interest.model true now self) "id"
                  (VInt pk)).
  exists self'. split; [|split; [|split; [|split; [|split]]]].
  - apply (create_spec _ _ _ _ self Hinit); [by apply attr_lookup|done|].
    check_columns Interest_columns.
  - unfold self'. by rewrite saved_lookup.
  - unfold self'. by rewrite saved_lookup.
  - unfold self'. by rewrite saved_lookup.
  - unfold self'. by rewrite saved_lookup.
  - intros j r Hj.
    assert (j ≠ pk) by (intros ->; unfold pk in Hj;
                        by rewrite next_pk_fresh in Hj).
    split; [done|]. by rewrite lookup_insert_ne.
Qed.

Lemma interest_create_never_rejected_as_duplicate_witness :
  ∃ first db1 second db2,
    create Interest.model 0 Scenario.db0 {[ "user" := VInt 1; "book" := VInt 7 ]}
    = Ok (first, db1)
    ∧ create Interest.model 0 db1 {[ "user" := VInt 1; "book" := VInt 7 ]}
      = Ok (second, db2)
    ∧ first !! "id" ≠ second !! "id"
    ∧ (∃ j, get_table db2 "libraryapi_interest" !! j = Some first)
    ∧ (∃ j, get_table db2 "libraryapi_interest" !! j = Some second).
Proof.
  assert (Huser : ∀ db, is_Some (get_table Scenario.db0 "auth_user" !! 1) →
            is_Some (get_table (<["libraryapi_interest" := db]> Scenario.db0)
                       "auth_user" !! 1)).
  { intros db. by rewrite get_table_insert_ne. }
  assert (Hbook : ∀ db, is_Some (get_table Scenario.db0 "libraryapi_book" !! 7) →
            is_Some (get_table (<["libraryapi_interest" := db]> Scenario.db0)
                       "libraryapi_book" !! 7)).
  { intros db. by rewrite get_table_insert_ne. }
  assert (H1 : is_Some (get_table Scenario.db0 "auth_user" !! 1))
    by by_computation.
  assert (H7 : is_Some (get_table Scenario.db0 "libraryapi_book" !! 7))
    by by_computation.
  pose proof (interest_create_never_rejected_as_duplicate
                0 Scenario.db0 1 7 H1 H7) as Hfirst.
  cbv zeta in Hfirst.
  destruct Hfirst as (first & Hc1 & Hid1 & _ & _ & _ & _).
  set (t0 := get_table Scenario.db0 "libraryapi_interest") in *.
  set (t1 := <[next_pk t0 := first]> t0) in *.
  pose proof (interest_create_never_rejected_as_duplicate
                0 (<["libraryapi_interest" := t1]> Scenario.db0) 1 7
                (Huser t1 H1) (Hbook t1 H7)) as Hsecond.
  cbv zeta in Hsecond. rewrite get_table_insert in Hsecond.
  destruct Hsecond as (second & Hc2 & Hid2 & _ & _ & _ & Hkept).
  destruct (Hkept (next_pk t0) first (lookup_insert_eq _ _ _))
    as [Hne Hstill].
  eexists first, _, second, _. split; [exact Hc1|]. split; [exact Hc2|].
  rewrite get_table_insert. split; [|split].
  - rewrite Hid1, Hid2. congruence.
  - eexists. exact Hstill.
  - eexists. apply lookup_insert_eq.
Defined.

(** ** Lending ledger: the expected return date *)

Lemma loan_is_created :
  create History.model Scenario.noon_2024_01_01 Scenario.db0
    {[ "book" := VInt 7; "user" := VInt 1 ]}
  = Ok (Scenario.loan,
        <["libraryapi_history" := {[ 1 := Scenario.loan ]}]> Scenario.db0).
Proof. apply (bool_decide_unpack _). vm_compute. exact I. Qed.

Lemma scenario_days :
  Datetime.date 2024 1 1 = Some Scenario.d2024_01_01
  ∧ Datetime.date 2024 1 15 = Some Scenario.d2024_01_15
  ∧ Datetime.date 2024 1 15 = Some (Scenario.d2024_01_01 + 14)
  ∧ Datetime.datetime_date Scenario.noon_2024_01_01 = Scenario.d2024_01_01.
Proof. by vm_compute. Qed.

(** C1, as stated, fails. The loan issued on 2024-01-01 has, when the
    property is read on 2024-01-02, the expected return date 2024-01-16
    and not 2024-01-15 = lending date + 14 days; read on 2024-01-03 it
    has yet another value. *)
Lemma exptdreturn_date_not_from_lending_date :
  Scenario.loan !! "lending_date" = Some (VDateTime Scenario.noon_2024_01_01)
  ∧ Datetime.datetime_date Scenario.noon_2024_01_01 = Scenario.d2024_01_01
  ∧ History.exptdreturn_date Scenario.d2024_01_02 Scenario.loan
    = Ok (Scenario.d2024_01_15 + 1)
  ∧ History.exptdreturn_date Scenario.d2024_01_02 Scenario.loan
    ≠ Ok (Datetime.datetime_date Scenario.noon_2024_01_01 + 14)
  ∧ History.exptdreturn_date Scenario.d2024_01_02 Scenario.loan
    ≠ History.exptdreturn_date Scenario.d2024_01_03 Scenario.loan.
Proof. by vm_compute. Qed.

(** C1, amended. [exptdreturn_date] is the day on which it is read plus
    14 days, for every read day up to 9999-12-17 (a later one raises
    [OverflowError]). It is the same for all records read on that day,
    whatever their lending date, and it coincides with lending date + 14
    days exactly when the record is read on the day of its lending
    date. *)
Theorem exptdreturn_date_is_read_date_plus_14 (today : Z) (self : instance) :
  1 ≤ today ≤ Datetime._MAXORDINAL - 14 →
  History.exptdreturn_date today self = Ok (today + 14)
  ∧ (∀ other : instance,
       History.exptdreturn_date today other
       = History.exptdreturn_date today self)
  ∧ (∀ t : Z,
       self !! "lending_date" = Some (VDateTime t) →
       History.exptdreturn_date today self
       = Ok (Datetime.datetime_date t + 14)
       ↔ today = Datetime.datetime_date t).
Proof.
  intros Hrange.
  assert (H : ∀ r, History.exptdreturn_date today r = Ok (today + 14)).
  { intros r.
    unfold History.exptdreturn_date, History._expected_return_date,
      Datetime.date_add, Datetime.timedelta_weeks; simpl.
    change (7 * 2) with 14. unfold Datetime._MAXORDINAL in *.
    destruct (Z.ltb_spec 0 (today + 14)); [|lia].
    destruct (Z.leb_spec (today + 14) 3652059); [done|lia]. }
  split; [apply H|]. split.
  - intros other. by rewrite !H.
  - intros t _. rewrite H. split.
    + intros [=]. lia.
    + by intros ->.
Qed.

Lemma exptdreturn_date_is_read_date_plus_14_witness :
  History.exptdreturn_date Scenario.d2024_01_01 Scenario.loan
  = Ok Scenario.d2024_01_15.
Proof.
  refine (proj1 (exptdreturn_date_is_read_date_plus_14
                   Scenario.d2024_01_01 Scenario.loan _)).
  vm_compute. split; discriminate.
Defined.

(** ** Lending ledger: creation and update of loans *)

Lemma History_columns :
  columns History.model
  = [pk_field; BaseInfo.created_at; BaseInfo.updated_at;
     History.lending_date; History.return_date; History.returned;
     History.book; History.user].
Proof. reflexivity. Qed.

(** A loan is created from the book and the user; [supplied] is the
    value, if any, that the caller passes for [lending_date]. *)
Lemma History_create (now : Z) (db : database) (book user : Z)
    (supplied : option value) :
  is_Some (get_table db "libraryapi_book" !! book) →
  is_Some (get_table db "auth_user" !! user) →
  let t := get_table db "libraryapi_history" in
  let pk := next_pk t in
  ∃ self',
    create History.model now db (History.loan_kwargs book user supplied)
    = Ok (self', <["libraryapi_history" := <[pk := self']> t]> db)
    ∧ t !! pk = None
    ∧ self' !! "id" = Some (VInt pk)
    ∧ self' !! "created_at" = Some (VDateTime now)
    ∧ self' !! "updated_at" = Some (VDateTime now)
    ∧ self' !! "lending_date" = Some (VDateTime now)
    ∧ self' !! "return_date" = Some VNone
    ∧ self' !! "returned" = Some (VBool false)
    ∧ self' !! "book" = Some (VInt book)
    ∧ self' !! "user" = Some (VInt user).
Proof.
  intros Hbook Huser t pk.
  remember (History.loan_kwargs book user supplied) as kwargs eqn:Hkw.
  assert (Hk : kwargs !! "id" = None ∧ kwargs !! "created_at" = None
               ∧ kwargs !! "updated_at" = None
               ∧ kwargs !! "lending_date" = supplied
               ∧ kwargs !! "return_date" = None
               ∧ kwargs !! "returned" = None
               ∧ kwargs !! "book" = Some (VInt book)
               ∧ kwargs !! "user" = Some (VInt user)).
  { subst kwargs. unfold History.loan_kwargs.
    destruct supplied; repeat split; lookup_tac. }
  destruct Hk as (Kid & Kc & Ku & Kl & Krd & Kr & Kbook & Kuser).
  destruct (init_spec History.model now kwargs) as (self & Hinit & Hcols & _).
  { by_computation. }
  { subst kwargs. unfold History.loan_kwargs.
    destruct supplied; by_computation. }
  per_column Hcols History_columns.
  rewrite ?Kid, ?Kc, ?Ku, ?Krd, ?Kr, ?Kbook, ?Kuser in *. simpl in *.
  set (self' := setattr (pre_save_all History.model true now self) "id"
                  (VInt pk)).
  exists self'. split; [|split; [apply next_pk_fresh|]].
  - apply (create_spec _ _ _ _ self Hinit); [by apply attr_lookup|done|].
    check_columns History_columns.
  - unfold self'. rewrite !saved_lookup. simpl. by repeat split.
Qed.

(** Saving a loan that is in the table writes the instance as it is,
    except for [updated_at], which becomes the time of the save. *)
Lemma History_save (now : Z) (db : database) (self r0 : instance) (k : Z) :
  self !! "id" = Some (VInt k) →
  get_table db "libraryapi_history" !! k = Some r0 →
  constraints_ok History.model db k self = true →
  ∃ self',
    save History.model now db self
    = (self',
       Ok (<["libraryapi_history" :=
               <[k := self']> (get_table db "libraryapi_history")]> db))
    ∧ self' !! "updated_at" = Some (VDateTime now)
    ∧ (∀ n, n ≠ "updated_at" → self' !! n = self !! n).
Proof.
  intros Hid Hrow Hok. eexists. split; [|split].
  - apply (save_update_ok History.model now db self r0 k);
      [by_computation | done..].
  - by rewrite saved_lookup.
  - intros n Hn. rewrite saved_lookup.
    destruct (String.eqb_spec "id" n) as [<-|_]; [done|].
    rewrite History_columns. cbn -[String.eqb].
    destruct (String.eqb_spec "updated_at" n) as [<-|_]; [done|].
    by rewrite !andb_false_r.
Qed.

(** C9, as stated, fails on its second half. The loan issued at noon of
    2024-01-01 is fetched, its [lending_date] is assigned, and it is
    saved a day later: the save succeeds and the stored [lending_date]
    is the assigned one. *)
Lemma lending_date_changed_by_update :
  create History.model Scenario.noon_2024_01_01 Scenario.db0
    (History.loan_kwargs 7 1 None)
  = Ok (Scenario.loan, Scenario.db1)
  ∧ get_table Scenario.db1 "libraryapi_history" !! 1 = Some Scenario.loan
  ∧ Scenario.loan !! "lending_date"
    = Some (VDateTime Scenario.noon_2024_01_01)
  ∧ save History.model Scenario.next_day Scenario.db1
      (setattr Scenario.loan "lending_date" (VDateTime 0))
    = (Scenario.loan_redated,
       Ok (<["libraryapi_history" := {[ 1 := Scenario.loan_redated ]}]>
             Scenario.db0))
  ∧ Scenario.loan_redated !! "lending_date" = Some (VDateTime 0)
  ∧ Scenario.loan_redated !! "lending_date"
    ≠ Scenario.loan !! "lending_date".
Proof. by_computation. Qed.

(** C9, amended. [lending_date] is set at creation to the time of
    creation, whatever the caller supplies for it. A later save never
    sets it by itself: it writes the [lending_date] that the instance
    carries (and the time of the save as [updated_at]), so the stored
    [lending_date] is unchanged by every update that does not assign
    it. *)
Theorem lending_date_set_at_creation_and_not_refreshed :
  (∀ (now : Z) (db : database) (book user : Z) (supplied : option value),
     is_Some (get_table db "libraryapi_book" !! book) →
     is_Some (get_table db "auth_user" !! user) →
     ∃ self' pk,
       create History.model now db (History.loan_kwargs book user supplied)
       = Ok (self',
             <["libraryapi_history" :=
                 <[pk := self']> (get_table db "libraryapi_history")]> db)
       ∧ self' !! "lending_date" = Some (VDateTime now))
  ∧ (∀ (later : Z) (db : database) (self stored : instance) (k : Z),
       self !! "id" = Some (VInt k) →
       get_table db "libraryapi_history" !! k = Some stored →
       constraints_ok History.model db k self = true →
       ∃ self',
         save History.model later db self
         = (self',
            Ok (<["libraryapi_history" :=
                    <[k := self']> (get_table db "libraryapi_history")]> db))
         ∧ self' !! "lending_date" = self !! "lending_date"
         ∧ (self !! "lending_date" = stored !! "lending_date" →
            self' !! "lending_date" = stored !! "lending_date")
         ∧ self' !! "updated_at" = Some (VDateTime later)).
Proof.
  split.
  - intros now db book user supplied Hbook Huser.
    destruct (History_create now db book user supplied Hbook Huser)
      as (self' & Hcreate & _ & _ & _ & _ & Hlending & _).
    eexists self', _. split; [exact Hcreate | exact Hlending].
  - intros later db self stored k Hid Hrow Hok.
    destruct (History_save later db self stored k Hid Hrow Hok)
      as (self' & Hsave & Hupdated & Hframe).
    exists self'. split; [done|].
    rewrite (Hframe "lending_date") by done. by repeat split.
Qed.

Lemma lending_date_set_at_creation_and_not_refreshed_witness :
  (∃ self' db',
     create History.model 5 Scenario.db0
       (History.loan_kwargs 7 1 (Some (VDateTime 0)))
     = Ok (self', db')
     ∧ self' !! "lending_date" = Some (VDateTime 5))
  ∧ (∃ self' db',
       save History.model Scenario.next_day Scenario.db1
         (setattr Scenario.loan "returned" (VBool true))
       = (self', Ok db')
       ∧ self' !! "lending_date"
         = Some (VDateTime Scenario.noon_2024_01_01)).
Proof.
  destruct lending_date_set_at_creation_and_not_refreshed
    as [Hcreate Hsave].
  split.
  - destruct (Hcreate 5 Scenario.db0 7 1 (Some (VDateTime 0)))
      as (self' & pk & Hc & Hl); [by_computation..|].
    eexists self', _. split; [exact Hc | exact Hl].
  - destruct (Hsave Scenario.next_day Scenario.db1
                (setattr Scenario.loan "returned" (VBool true))
                Scenario.loan 1)
      as (self' & Hs & Hl & _); [by_computation..|].
    eexists self', _. split; [exact Hs|]. rewrite Hl. by_computation.
Defined.

(** ** Lending ledger: the return of a loan *)

(** Assigning [return_date] and [returned] to a loan that meets the
    constraints gives an instance that meets them, whatever the two
    values. *)
Lemma return_fields_unconstrained (db : database) (k : Z) (self : instance)
    (on : option Z) (flag : bool) :
  constraints_ok History.model db k self = true →
  constraints_ok History.model db k
    (setattr (setattr self "return_date" (nullable_datetime on))
       "returned" (VBool flag)) = true
  ∧ constraints_ok History.model db k
      (setattr self "return_date" (nullable_datetime on)) = true
  ∧ constraints_ok History.model db k
      (setattr self "returned" (VBool flag)) = true.
Proof.
  intros Hok.
  repeat split; apply (constraints_ok_transfer _ _ _ self _ Hok);
    rewrite History_columns;
    repeat apply Forall_cons_2; try apply Forall_nil_2;
    unfold attr, not_null_ok, attr, setattr; simpl;
    rewrite ?lookup_insert_eq;
    repeat (rewrite lookup_insert_ne by done);
    rewrite ?lookup_insert_eq;
    first [ by left | by right ].
Qed.

(** C10. A loan created with no value for these fields has [returned]
    false and [return_date] null. Of the fields of History only
    [return_date] is nullable. Afterwards the two can be set to any
    combination of a datetime or null and a flag, together or one
    without the other: every such update is accepted and written as it
    is, and an update of one of the two leaves the other as it was. *)
Theorem new_loan_not_returned_and_return_fields_independent :
  (∀ (now : Z) (db : database) (book user : Z),
     is_Some (get_table db "libraryapi_book" !! book) →
     is_Some (get_table db "auth_user" !! user) →
     ∃ self' pk,
       create History.model now db (History.loan_kwargs book user None)
       = Ok (self',
             <["libraryapi_history" :=
                 <[pk := self']> (get_table db "libraryapi_history")]> db)
       ∧ self' !! "returned" = Some (VBool false)
       ∧ self' !! "return_date" = Some VNone)
  ∧ (null History.return_date = true
     ∧ null History.lending_date = false
     ∧ null History.returned = false
     ∧ List.filter null (fields History.model) = [History.return_date])
  ∧ (∀ (later : Z) (db : database) (self stored : instance) (k : Z)
       (on : option Z) (flag : bool),
       self !! "id" = Some (VInt k) →
       get_table db "libraryapi_history" !! k = Some stored →
       constraints_ok History.model db k self = true →
       (∃ self',
          save History.model later db
            (setattr (setattr self "return_date" (nullable_datetime on))
               "returned" (VBool flag))
          = (self',
             Ok (<["libraryapi_history" :=
                     <[k := self']> (get_table db "libraryapi_history")]> db))
          ∧ self' !! "return_date" = Some (nullable_datetime on)
          ∧ self' !! "returned" = Some (VBool flag))
       ∧ (∃ self',
            save History.model later db
              (setattr self "return_date" (nullable_datetime on))
            = (self',
               Ok (<["libraryapi_history" :=
                       <[k := self']> (get_table db "libraryapi_history")]> db))
            ∧ self' !! "return_date" = Some (nullable_datetime on)
            ∧ self' !! "returned" = self !! "returned")
       ∧ (∃ self',
            save History.model later db (setattr self "returned" (VBool flag))
            = (self',
               Ok (<["libraryapi_history" :=
                       <[k := self']> (get_table db "libraryapi_history")]> db))
            ∧ self' !! "returned" = Some (VBool flag)
            ∧ self' !! "return_date" = self !! "return_date")).
Proof.
  split; [|split].
  - intros now db book user Hbook Huser.
    destruct (History_create now db book user None Hbook Huser)
      as (self' & Hcreate & _ & _ & _ & _ & _ & Hdate & Hflag & _).
    eexists self', _. split; [exact Hcreate|]. by split.
  - by repeat split.
  - intros later db self stored k on flag Hid Hrow Hok.
    destruct (return_fields_unconstrained db k self on flag Hok)
      as (Hboth & Hdate & Hflag).
    split; [|split].
    + destruct (History_save later db
                  (setattr (setattr self "return_date" (nullable_datetime on))
                     "returned" (VBool flag))
                  stored k)
        as (self' & Hsave & _ & Hframe); [lookup_tac | done | done |].
      exists self'. split; [done|].
      rewrite !Hframe by done. split; lookup_tac.
    + destruct (History_save later db
                  (setattr self "return_date" (nullable_datetime on))
                  stored k)
        as (self' & Hsave & _ & Hframe); [lookup_tac | done | done |].
      exists self'. split; [done|].
      rewrite !Hframe by done. split; lookup_tac.
    + destruct (History_save later db
                  (setattr self "returned" (VBool flag))
                  stored k)
        as (self' & Hsave & _ & Hframe); [lookup_tac | done | done |].
      exists self'. split; [done|].
      rewrite !Hframe by done. split; lookup_tac.
Qed.

Lemma new_loan_not_returned_and_return_fields_independent_witness :
  (∃ self' db',
     create History.model Scenario.noon_2024_01_01 Scenario.db0
       (History.loan_kwargs 7 1 None)
     = Ok (self', db')
     ∧ self' !! "returned" = Some (VBool false)
     ∧ self' !! "return_date" = Some VNone)
  ∧ (∃ self' db',
       save History.model Scenario.next_day Scenario.db1
         (setattr Scenario.loan "returned" (VBool true))
       = (self', Ok db')
       ∧ self' !! "returned" = Some (VBool true)
       ∧ self' !! "return_date" = Some VNone).
Proof.
  destruct new_loan_not_returned_and_return_fields_independent
    as (Hcreate & _ & Hupdate).
  split.
  - destruct (Hcreate Scenario.noon_2024_01_01 Scenario.db0 7 1)
      as (self' & pk & Hc & Hflag & Hdate); [by_computation..|].
    eexists self', _. split; [exact Hc|]. by split.
  - destruct (Hupdate Scenario.next_day Scenario.db1 Scenario.loan
                Scenario.loan 1 None true)
      as (_ & _ & self' & Hs & Hflag & Hdate); [by_computation..|].
    eexists self', _. split; [exact Hs|]. split; [exact Hflag|].
    rewrite Hdate. by_computation.
Defined.

(** * Further properties of the models *)


(** ** Identity adapter: malformed payloads *)



(** The same for the picture: without the key [picture] the profile is
    neither changed nor saved. *)
Lemma picture_check_diff_missing_key
    (now : Z) (db : database) (self : instance) (idinfo : gmap string value) :
  idinfo !! "picture" = None →
  GoogleUser.check_diff now db self idinfo = (self, Err KeyError).
Proof.
  intros Hmissing. unfold GoogleUser.check_diff, getitem. by rewrite Hmissing.
Qed.

(** ** Identity adapter: repeated and partial reconciliations *)








(** ** The object-relational layer: rejected rows *)





Lemma foreign_key_violation (m : model) (db : database) (k j : Z)
    (r : instance) (f : field) (to : string) :
  f ∈ columns m → references f = Some to →
  attr r (attname f) = VInt j → get_table db to !! j = None →
  constraints_ok m db k r = false.
Proof.
  intros Hf Hto Hval Hmissing. apply not_true_iff_false. intros Hok.
  apply constraints_ok_iff in Hok.
  destruct (proj1 (Forall_forall _ _) Hok f Hf) as (_ & _ & Hfk).
  unfold foreign_key_ok in Hfk. rewrite Hto, Hval in Hfk.
  apply bool_decide_eq_true in Hfk. rewrite Hmissing in Hfk.
  by destruct Hfk.
Qed.

Lemma foreign_key_violation_named (m : model) (db : database) (k j : Z)
    (r : instance) (n to : string) :
  existsb (λ f, String.eqb (attname f) n
                && bool_decide (references f = Some to)) (columns m) = true →
  attr r n = VInt j → get_table db to !! j = None →
  constraints_ok m db k r = false.
Proof.
  intros (f & Hf & Hn)%existsb_exists.
  apply andb_true_iff in Hn as [<-%String.eqb_eq Hto%bool_decide_eq_true].
  apply (foreign_key_violation m db k j r f to);
    [by apply list_elem_of_In|done].
Qed.


(** ** Identity adapter: what the save rejects, and what it leaves alone *)







(** ** The object-relational layer: writes keep the database consistent *)

Lemma registry_tables_distinct : NoDup (db_table <$> Schema.registry).
Proof. by_computation. Qed.









(** ** Deletion *)





















(** ** The audit timestamps of [BaseInfo] *)





(** ** Creation: what the declarations make it reject *)












(** ** Every reachable database is consistent *)










(** ** Lending ledger: the listing after a loan is issued *)




(** ** The display methods on stored rows *)










(** ** The initial migration of [libraryapp] *)








(** ** The diff-and-update loop, in any order *)

